(** * kachy-valkey-python: the client library, embedded and verified

    The library marshals key-value calls into HTTP requests against a proxy
    and unmarshals the JSON answers.  The embedding follows the four source
    files:

    - [src/kachy/config.py]    ->  [Module Config]
    - [src/kachy/client.py]    ->  the exception classes and [Module Client]
    - [src/kachy/pipeline.py]  ->  [Module Pipeline]
    - [src/kachy/__init__.py]  ->  [Module Kachy]

    What is not part of the library is a parameter: the network and the
    installed [requests]/[urllib3] ([Library]), the environment variables
    and the builtins [int] and [float], and the modules the interpreter has
    imported so far.  The session that the client mounts on the network is
    built from the retry policy of [_create_session].  Effects are a log of
    the calls made on the session; exceptions are the [Raise] branch of
    [result]. *)

From stdpp Require Import base gmap strings list pretty.
From Stdlib Require Import ZArith QArith.

Set Warnings "-register-all".
Close Scope Q_scope.

(** ** Python values

    What travels through the library: JSON-shaped values.  A [dict] with
    string keys is a finite map; a [list] or a [tuple] is a list. *)

Inductive pyval : Type :=
| PNone
| PBool (b : bool)
| PInt (z : Z)
| PStr (s : string)
| PList (l : list pyval)
| PDict (d : gmap string pyval).

(** [type(v).__name__], as it shows in the message of an [AttributeError]. *)
Definition type_name (v : pyval) : string :=
  match v with
  | PNone => "NoneType"
  | PBool _ => "bool"
  | PInt _ => "int"
  | PStr _ => "str"
  | PList _ => "list"
  | PDict _ => "dict"
  end.

(** [Optional[int]] arguments: [None] or an integer. *)
Definition of_optional_int (ex : option Z) : pyval :=
  match ex with
  | Some n => PInt n
  | None => PNone
  end.

(** [str.upper] on the ASCII letters; other bytes are kept. *)
Definition upper_ascii (c : Ascii.ascii) : Ascii.ascii :=
  let n := Ascii.nat_of_ascii c in
  if (97 <=? n)%nat && (n <=? 122)%nat then Ascii.ascii_of_nat (n - 32) else c.

Fixpoint upper (s : string) : string :=
  match s with
  | EmptyString => EmptyString
  | String c rest => String (upper_ascii c) (upper rest)
  end.

(** ** Exceptions

    The classes the four files name or meet, with their direct base class.
    [RequestException] and the three classes under it are those of the
    [requests] package; the four [Kachy...] classes are declared at
    [client.py] lines 16-33.  [KeyboardInterrupt] and [SystemExit] derive
    from [BaseException] and not from [Exception]: an [except Exception]
    does not catch them. *)

Inductive exc_class : Type :=
| BaseException
| KeyboardInterrupt
| SystemExit
| Exception
| ValueError
| RuntimeError
| AttributeError
| TypeError
| ImportError
| OSError
| RequestException
| RequestsConnectionError
| RequestsTimeout
| RequestsRetryError
| KachyError
| KachyConnectionError
| KachyAuthenticationError
| KachyResponseError.

#[global] Instance exc_class_eq_dec : EqDecision exc_class.
Proof. solve_decision. Defined.

Definition base (c : exc_class) : option exc_class :=
  match c with
  | BaseException => None
  | KeyboardInterrupt | SystemExit | Exception => Some BaseException
  | ValueError | RuntimeError | AttributeError | TypeError | ImportError | OSError =>
      Some Exception
  | RequestException => Some OSError
  | RequestsConnectionError | RequestsTimeout | RequestsRetryError =>
      Some RequestException
  | KachyError => Some Exception
  | KachyConnectionError | KachyAuthenticationError | KachyResponseError =>
      Some KachyError
  end.

(** Walk up the chain of base classes; the longest chain above has four
    steps (from a class of [requests] up to [BaseException]). *)
Fixpoint inherits (fuel : nat) (c d : exc_class) : bool :=
  if bool_decide (c = d) then true
  else match fuel with
       | O => false
       | S fuel' =>
           match base c with
           | Some b => inherits fuel' b d
           | None => false
           end
       end.

Definition issubclass (c d : exc_class) : bool := inherits 4 c d.

(** The three classes that [_make_request] raises. *)
Definition error_kinds : list exc_class :=
  [KachyConnectionError; KachyAuthenticationError; KachyResponseError].

(** An exception instance: its class and [str(e)]. *)
Record exn : Type := mk_exn { exc_type : exc_class; exc_str : string }.

(** [except d:] catches [e]. *)
Definition isinstance (e : exn) (d : exc_class) : bool :=
  issubclass (exc_type e) d.

Inductive result (A : Type) : Type :=
| Ok (a : A)
| Raise (e : exn).
Arguments Ok {A} a.
Arguments Raise {A} e.

Definition exception_of {A : Type} (r : result A) : option exn :=
  match r with
  | Ok _ => None
  | Raise e => Some e
  end.

(** [v.get(key, dflt)]: only a [dict] has the method. *)
Definition py_get (v : pyval) (key : string) (dflt : pyval) : result pyval :=
  match v with
  | PDict d => Ok (default dflt (d !! key))
  | _ =>
      Raise (mk_exn AttributeError
               ("'" +:+ type_name v +:+ "' object has no attribute 'get'"))
  end.

(** ** The HTTP session *)

(** The keyword arguments of [session.request]. *)
Record http_request : Type := mk_request {
  req_method : string;
  req_url : string;
  req_headers : gmap string string;
  req_json : option pyval;
  req_timeout : Z
}.

(** What the code reads from a response: [status_code], [content] (the raw
    body), [text] and the outcome of [json()]. *)
Record Response : Type := mk_response {
  status_code : Z;
  content : string;
  text : string;
  json : result pyval
}.

Inductive session_outcome : Type :=
| Responds (r : Response)
| Fails (e : exn).

Inductive session_call : Type :=
| SessionRequest (r : http_request)
| SessionClose.

Definition trace : Type := list session_call.

(** A session answers a request, possibly depending on the earlier calls. *)
Definition Session : Type := trace → http_request → session_outcome.

(** What the library runs on: the installed [requests]/[urllib3] and the
    servers behind them.
    - [accepts_method_whitelist]: whether [urllib3.util.retry.Retry] takes
      the keyword [method_whitelist] (urllib3 before 2.0 does, later
      versions raise [TypeError]);
    - [exchange n tr request]: what the [n]-th attempt of the session call
      that follows the calls [tr] comes to, once the handling that this
      code does not configure is done (redirects, re-connection): a response
      or a failure;
    - [retry_error_str request response]: [str()] of the [RetryError] that
      [requests] raises when the retries are used up on [response]. *)
Record Library : Type := mk_library {
  accepts_method_whitelist : bool;
  exchange : nat → trace → http_request → session_outcome;
  retry_error_str : http_request → Response → string
}.

(** ** Computations that log session calls and may raise *)

Definition M (A : Type) : Type := trace → result A * trace.

Definition ret {A : Type} (a : A) : M A := fun tr => (Ok a, tr).

Definition lift {A : Type} (r : result A) : M A := fun tr => (r, tr).

Definition bind {A B : Type} (m : M A) (k : A → M B) : M B :=
  fun tr =>
    match m tr with
    | (Ok a, tr') => k a tr'
    | (Raise e, tr') => (Raise e, tr')
    end.

Notation "'let!' x ':=' m 'in' k" := (bind m (fun x => k))
  (at level 10, x name, m at level 100, k at level 200).

(** The same for plain [result], where no session is involved. *)
Definition rbind {A B : Type} (r : result A) (k : A → result B) : result B :=
  match r with
  | Ok a => k a
  | Raise e => Raise e
  end.

(** ** The three classes' instance data *)

(** [config.py] lines 10-23.  [access_key] is [None] or a string. *)
Record KachyConfig : Type := mk_config {
  access_key : option string;
  base_url : string;
  timeout : Z;
  max_retries : Z;
  retry_delay : Q;
  pool_size : Z;
  user_agent : string;
  headers : gmap string string
}.

(** [client.py] lines 45-46. *)
Record KachyClient : Type := mk_client {
  config : KachyConfig;
  session : Session
}.

(** [pipeline.py] lines 18-19.  Every builder appends a tuple whose first
    component is the command name, a string; a command is kept as that
    name ([cmd[0]]) and the rest of the tuple ([cmd[1:]]). *)
Definition command : Type := string * list pyval.

Record KachyPipeline : Type := mk_pipeline {
  client : KachyClient;
  commands : list command
}.

(** ** config.py *)

Module Config.

(** Python's truth value of the credential: [None] and the empty string are
    false. *)
Definition truthy (k : option string) : bool :=
  match k with
  | Some (String _ _) => true
  | Some EmptyString => false
  | None => false
  end.

(** The dict literal of lines 32-36. *)
Definition default_headers (ua : string) : gmap string string :=
  <["Content-Type" := "application/json"]>
    (<["Accept" := "application/json"]>
       (<["User-Agent" := ua]> ∅)).

(** Lines 25-36.  The method updates [self] in place; the updated object is
    the result. *)
Definition __post_init__ (self : KachyConfig) : result KachyConfig :=
  if negb (truthy (access_key self)) then
    Raise (mk_exn ValueError "KACHY_ACCESS_KEY is required")
  else if bool_decide (headers self = ∅) then
    Ok (mk_config (access_key self) (base_url self) (timeout self)
          (max_retries self) (retry_delay self) (pool_size self)
          (user_agent self) (default_headers (user_agent self)))
  else Ok self.

(** The keyword arguments a caller may give besides the credential. *)
Record kwargs : Type := mk_kwargs {
  kw_base_url : option string;
  kw_timeout : option Z;
  kw_max_retries : option Z;
  kw_retry_delay : option Q;
  kw_pool_size : option Z;
  kw_user_agent : option string;
  kw_headers : option (gmap string string)
}.

Definition no_kwargs : kwargs :=
  mk_kwargs None None None None None None None.

Section Defaults.

(** [os.environ], and the builtins [int] and [float] applied to a string. *)
Variable environ : gmap string string.
Variable int_ : string → result Z.
Variable float_ : string → result Q.

Definition environ_get (key dflt : string) : string :=
  default dflt (environ !! key).

(** A field takes the argument when given, its default factory otherwise. *)
Definition field {A : Type} (given : option A) (factory : result A) : result A :=
  match given with
  | Some a => Ok a
  | None => factory
  end.

(** The [__init__] that [@dataclass] generates from lines 14-23: the fields
    in order, then [__post_init__]. *)
Definition __init__ (key : option string) (kw : kwargs) : result KachyConfig :=
  rbind (field (kw_base_url kw)
           (Ok (environ_get "KACHY_BASE_URL" "https://api.klache.net"))) (fun b =>
  rbind (field (kw_timeout kw) (int_ (environ_get "KACHY_TIMEOUT" "30"))) (fun t =>
  rbind (field (kw_max_retries kw) (int_ (environ_get "KACHY_MAX_RETRIES" "3"))) (fun r =>
  rbind (field (kw_retry_delay kw) (float_ (environ_get "KACHY_RETRY_DELAY" "1.0"))) (fun d =>
  rbind (field (kw_pool_size kw) (int_ (environ_get "KACHY_POOL_SIZE" "10"))) (fun p =>
  rbind (field (kw_user_agent kw) (Ok "kachy-valkey-python/0.1.0")) (fun ua =>
  rbind (field (kw_headers kw) (Ok ∅)) (fun h =>
  __post_init__ (mk_config key b t r d p ua h)))))))).

End Defaults.

End Config.

(** ** client.py *)

Module Client.

(** The retry policy of lines 53-58. *)
Definition status_forcelist : list Z := [429; 500; 502; 503; 504]%Z.

Definition method_whitelist : list string :=
  ["HEAD"; "GET"; "OPTIONS"; "POST"; "PUT"; "DELETE"].

(** urllib3's test for a response to retry: its status is in the list and
    its method, in upper case, is one of the allowed ones. *)
Definition is_retry (method : string) (status : Z) : bool :=
  bool_decide (status ∈ status_forcelist)
  && bool_decide (upper method ∈ method_whitelist).

(** [session.request] through the mounted adapter, with [retries] retries
    left.  A response to retry is tried again while retries are left; when
    none is left it ends in a [RetryError]: urllib3 raises on the status,
    [raise_on_status] being left at its default.  Any other response is
    handed back, and a failure is the failure of the call.  The waiting
    between attempts ([backoff_factor]) has no part in the outcome. *)
Fixpoint send (lib : Library) (retries attempt : nat) (tr : trace)
    (request : http_request) : session_outcome :=
  match exchange lib attempt tr request with
  | Responds response =>
      if is_retry (req_method request) (status_code response) then
        match retries with
        | O => Fails (mk_exn RequestsRetryError (retry_error_str lib request response))
        | S retries' => send lib retries' (S attempt) tr request
        end
      else Responds response
  | Fails e => Fails e
  end.

(** The session of lines 50-64 once it is mounted: [total] is
    [config.max_retries]. *)
Definition mounted (cfg : KachyConfig) (lib : Library) : Session :=
  fun tr request => send lib (Z.to_nat (max_retries cfg)) 0 tr request.

(** Lines 48-64.  The [Retry] of lines 53-58 is built with the keyword
    [method_whitelist]. *)
Definition _create_session (cfg : KachyConfig) (lib : Library) : result Session :=
  if accepts_method_whitelist lib then Ok (mounted cfg lib)
  else Raise (mk_exn TypeError
                "__init__() got an unexpected keyword argument 'method_whitelist'").

(** Lines 39-46. *)
Definition __init__ (lib : Library) (cfg : KachyConfig) : result KachyClient :=
  rbind (_create_session cfg lib) (fun s => Ok (mk_client cfg s)).

(** The client that [__init__] returns when it returns one. *)
Definition connected (cfg : KachyConfig) (lib : Library) : KachyClient :=
  mk_client cfg (mounted cfg lib).

Definition _get_auth_token (self : KachyClient) : option string :=
  access_key (config self).

(** A value inside an f-string. *)
Definition format_key (k : option string) : string :=
  match k with
  | Some s => s
  | None => "None"
  end.

(** What lines 99-104 make of a response. *)
Definition check_response (response : Response) : result pyval :=
  if (status_code response =? 401)%Z then
    Raise (mk_exn KachyAuthenticationError "Authentication failed")
  else if (400 <=? status_code response)%Z then
    Raise (mk_exn KachyResponseError
             ("API error " +:+ pretty (status_code response) +:+ ": "
                +:+ text response))
  else match content response with
       | String _ _ => json response
       | EmptyString => Ok PNone
       end.

(** The request that [_make_request] hands to the session (lines 86-97). *)
Definition build_request (self : KachyClient) (method endpoint : string)
    (data : option pyval) : http_request :=
  mk_request method
    (base_url (config self) +:+ endpoint)
    (<["Authorization" := "Bearer " +:+ format_key (_get_auth_token self)]>
       (headers (config self)))
    data
    (timeout (config self)).

(** Lines 70-107.  The [try] covers the call and the checks; the handler
    rewraps what derives from [RequestException] and lets the rest pass. *)
Definition _make_request (self : KachyClient) (method endpoint : string)
    (data : option pyval) : M pyval :=
  fun tr =>
    let request := build_request self method endpoint data in
    let body :=
      match session self tr request with
      | Responds response => check_response response
      | Fails e => Raise e
      end in
    let outcome :=
      match body with
      | Ok v => Ok v
      | Raise e =>
          if isinstance e RequestException then
            Raise (mk_exn KachyConnectionError ("Request failed: " +:+ exc_str e))
          else Raise e
      end in
    (outcome, tr ++ [SessionRequest request]).

(** Lines 109-125. *)
Definition set (self : KachyClient) (key value : string) (ex : option Z) : M pyval :=
  let data : gmap string pyval :=
    <["value" := PStr value]> (<["key" := PStr key]> ∅) in
  let data :=
    match ex with
    | Some n => <["ex" := PInt n]> data
    | None => data
    end in
  let! result := _make_request self "POST" "/valkey/set" (Some (PDict data)) in
  lift (py_get result "success" (PBool false)).

(** Lines 127-137. *)
Definition get (self : KachyClient) (key : string) : M pyval :=
  let! result := _make_request self "GET" ("/valkey/get/" +:+ key) None in
  lift (py_get result "value" PNone).

(** Lines 139-149. *)
Definition delete (self : KachyClient) (key : string) : M pyval :=
  let! result := _make_request self "DELETE" ("/valkey/del/" +:+ key) None in
  lift (py_get result "deleted" (PBool false)).

(** Lines 151-161. *)
Definition exists_ (self : KachyClient) (key : string) : M pyval :=
  let! result := _make_request self "GET" ("/valkey/exists/" +:+ key) None in
  lift (py_get result "exists" (PBool false)).

(** Lines 163-175. *)
Definition expire (self : KachyClient) (key : string) (seconds : Z) : M pyval :=
  let data : gmap string pyval :=
    <["seconds" := PInt seconds]> (<["key" := PStr key]> ∅) in
  let! result := _make_request self "POST" "/valkey/expire" (Some (PDict data)) in
  lift (py_get result "success" (PBool false)).

(** Lines 177-187. *)
Definition ttl (self : KachyClient) (key : string) : M pyval :=
  let! result := _make_request self "GET" ("/valkey/ttl/" +:+ key) None in
  lift (py_get result "ttl" (PInt (-2))).

(** Lines 189-205. *)
Definition redis (self : KachyClient) (cmd : string) (args : list pyval) : M pyval :=
  let data : gmap string pyval :=
    <["args" := PList args]> (<["command" := PStr (upper cmd)]> ∅) in
  let! result := _make_request self "POST" "/valkey/exec" (Some (PDict data)) in
  lift (py_get result "result" PNone).

(** Lines 207-213, with [KachyPipeline.__init__]. *)
Definition pipeline (self : KachyClient) : KachyPipeline :=
  mk_pipeline self [].

(** Lines 215-218; a session object is always true. *)
Definition close (self : KachyClient) : M unit :=
  fun tr => (Ok tt, tr ++ [SessionClose]).

(** The public methods that the class body binds, by name and by the shape
    of their parameters.  Besides them an instance has [config], [session]
    and the underscore methods; no other name resolves. *)
Inductive method : Type :=
| MSet (f : KachyClient → string → string → option Z → M pyval)
| MKey (f : KachyClient → string → M pyval)
| MExpire (f : KachyClient → string → Z → M pyval)
| MCommand (f : KachyClient → string → list pyval → M pyval)
| MPipeline (f : KachyClient → KachyPipeline)
| MClose (f : KachyClient → M unit).

Definition class_dict : list (string * method) :=
  [ ("set", MSet set);
    ("get", MKey get);
    ("delete", MKey delete);
    ("exists", MKey exists_);
    ("expire", MExpire expire);
    ("ttl", MKey ttl);
    ("redis", MCommand redis);
    ("pipeline", MPipeline pipeline);
    ("close", MClose close) ].

Fixpoint lookup_name (name : string) (d : list (string * method)) : option method :=
  match d with
  | [] => None
  | (n, m) :: rest => if String.eqb n name then Some m else lookup_name name rest
  end.

(** [self.name] on a client, for a public method name. *)
Definition getattr (name : string) : result method :=
  match lookup_name name class_dict with
  | Some m => Ok m
  | None =>
      Raise (mk_exn AttributeError
               ("'KachyClient' object has no attribute '" +:+ name +:+ "'"))
  end.

(** Calling a method with arguments of another shape. *)
Definition bad_call : exn := mk_exn TypeError "wrong arguments for the method".

(** Lines 220-226: the client as a context manager.  [__exit__] ignores the
    exception it is told about and returns [None], so the exception goes on. *)
Definition __enter__ (self : KachyClient) : KachyClient := self.

Definition __exit__ (self : KachyClient) : M unit := close self.

End Client.

(** ** pipeline.py *)

Module Pipeline.

Definition __init__ (c : KachyClient) : KachyPipeline := mk_pipeline c [].

(** [self.commands.append(cmd); return self]. *)
Definition append (self : KachyPipeline) (cmd : command) : KachyPipeline :=
  mk_pipeline (client self) (commands self ++ [cmd]).

(** Lines 21-33. *)
Definition set (self : KachyPipeline) (key value : string) (ex : option Z)
    : KachyPipeline :=
  append self ("SET", [PStr key; PStr value; of_optional_int ex]).

(** Lines 35-45. *)
Definition get (self : KachyPipeline) (key : string) : KachyPipeline :=
  append self ("GET", [PStr key]).

(** Lines 47-57. *)
Definition delete (self : KachyPipeline) (key : string) : KachyPipeline :=
  append self ("DEL", [PStr key]).

(** Lines 59-69. *)
Definition exists_ (self : KachyPipeline) (key : string) : KachyPipeline :=
  append self ("EXISTS", [PStr key]).

(** Lines 71-82. *)
Definition expire (self : KachyPipeline) (key : string) (seconds : Z)
    : KachyPipeline :=
  append self ("EXPIRE", [PStr key; PInt seconds]).

(** Lines 84-94. *)
Definition ttl (self : KachyPipeline) (key : string) : KachyPipeline :=
  append self ("TTL", [PStr key]).

(** Lines 96-107. *)
Definition redis (self : KachyPipeline) (cmd : string) (args : list pyval)
    : KachyPipeline :=
  append self (upper cmd, args).

(** One element of the list comprehension of lines 124-130. *)
Definition entry (cmd : command) : pyval :=
  PDict (<["args" := PList cmd.2]> (<["command" := PStr cmd.1]> ∅)).

(** The request body of lines 123-131. *)
Definition batch (cmds : list command) : pyval :=
  PDict (<["commands" := PList (entry <$> cmds)]> ∅).

(** [self.commands.clear()]. *)
Definition clear (self : KachyPipeline) : KachyPipeline :=
  mk_pipeline (client self) [].

(** The body of the [try] of lines 121-139, up to the clearing. *)
Definition flush (self : KachyPipeline) : M pyval :=
  let data := batch (commands self) in
  let! result :=
    Client._make_request (client self) "POST" "/valkey/pipeline" (Some data) in
  lift (py_get result "results" (PList [])).

(** Lines 109-144.  The pipeline object is mutated, so it is returned next
    to the outcome, also when the outcome is an exception. *)
Definition execute (self : KachyPipeline) (tr : trace)
    : result pyval * KachyPipeline * trace :=
  match commands self with
  | [] => (Ok (PList []), self, tr)
  | _ :: _ =>
      match flush self tr with
      | (Ok results, tr') => (Ok results, clear self, tr')
      | (Raise e, tr') =>
          if isinstance e Exception then (Raise e, clear self, tr')
          else (Raise e, self, tr')
      end
  end.

(** Lines 150-153. *)
Definition __exit__ (self : KachyPipeline) (tr : trace)
    : result unit * KachyPipeline * trace :=
  match commands self with
  | [] => (Ok tt, self, tr)
  | _ :: _ =>
      match execute self tr with
      | (r, self', tr') => (rbind r (fun _ => Ok tt), self', tr')
      end
  end.

(** Lines 146-148. *)
Definition __enter__ (self : KachyPipeline) : KachyPipeline := self.

End Pipeline.

(** ** __init__.py

    The module global [_client] is passed to each function; [init], the only
    function that assigns it, returns its new value.  [init] also imports
    the other modules of the package, so it takes and returns the modules
    that the interpreter has imported. *)

Module Kachy.

(** The modules of the package besides [__init__.py]. *)
Inductive module_name : Type :=
| kachy_config
| kachy_client
| kachy_pipeline.

#[global] Instance module_name_eq_dec : EqDecision module_name.
Proof. solve_decision. Defined.

Definition dotted (m : module_name) : string :=
  match m with
  | kachy_config => "kachy.config"
  | kachy_client => "kachy.client"
  | kachy_pipeline => "kachy.pipeline"
  end.

(** The [from .m import Name] statements of each module, in order:
    config.py has none, client.py has lines 12-13, pipeline.py has line 6.
    They stand at the top, before the module binds any name of its own. *)
Definition imports (m : module_name) : list (module_name * string) :=
  match m with
  | kachy_config => []
  | kachy_client => [(kachy_config, "KachyConfig"); (kachy_pipeline, "KachyPipeline")]
  | kachy_pipeline => [(kachy_client, "KachyClient")]
  end.

(** The message of the [ImportError] for a name that a module being
    imported has not bound yet (the interpreter appends the file's path). *)
Definition circular_import (m : module_name) (name : string) : exn :=
  mk_exn ImportError
    ("cannot import name '" +:+ name +:+ "' from partially initialized module '"
       +:+ dotted m +:+ "' (most likely due to a circular import)").

(** [depth] was chosen too small for the nesting of the imports; three
    modules nest at most three deep (see [import_depth_suffices]). *)
Definition too_deep : exn := mk_exn RuntimeError "import nesting exceeds depth".

(** [from .m import name], with [loaded] the modules imported in full and
    [loading] those whose top-level code is running.  A module imported in
    full has the name.  A module that is still running its imports has not
    bound it: [ImportError].  Otherwise the module's own imports run first;
    if one fails, the module is dropped again and the failure goes on. *)
Fixpoint import_from (depth : nat) (loading loaded : list module_name)
    (m : module_name) (name : string) : result unit * list module_name :=
  if bool_decide (m ∈ loaded) then (Ok tt, loaded)
  else if bool_decide (m ∈ loading) then (Raise (circular_import m name), loaded)
  else match depth with
       | O => (Raise too_deep, loaded)
       | S depth' =>
           let top_level :=
             fix go (statements : list (module_name * string))
                 (loaded : list module_name) : result unit * list module_name :=
               match statements with
               | [] => (Ok tt, loaded)
               | (dep, n) :: rest =>
                   match import_from depth' (m :: loading) loaded dep n with
                   | (Ok _, loaded') => go rest loaded'
                   | (Raise e, loaded') => (Raise e, loaded')
                   end
               end in
           match top_level (imports m) loaded with
           | (Ok _, loaded') => (Ok tt, m :: loaded')
           | (Raise e, loaded') => (Raise e, loaded')
           end
       end.

Section Init.

Variable lib : Library.
Variable environ : gmap string string.
Variable int_ : string → result Z.
Variable float_ : string → result Q.

(** Lines 10-22: the two imports of lines 18-19, the configuration, the
    client, and only then the assignment to the global. *)
Definition init (loaded : list module_name) (_client : option KachyClient)
    (key : option string) (kw : Config.kwargs)
    : result KachyClient * option KachyClient * list module_name :=
  match import_from 3 [] loaded kachy_config "KachyConfig" with
  | (Raise e, loaded1) => (Raise e, _client, loaded1)
  | (Ok _, loaded1) =>
      match import_from 3 [] loaded1 kachy_client "KachyClient" with
      | (Raise e, loaded2) => (Raise e, _client, loaded2)
      | (Ok _, loaded2) =>
          match Config.__init__ environ int_ float_ key kw with
          | Raise e => (Raise e, _client, loaded2)
          | Ok cfg =>
              match Client.__init__ lib cfg with
              | Raise e => (Raise e, _client, loaded2)
              | Ok c => (Ok c, Some c, loaded2)
              end
          end
      end
  end.

End Init.

Definition not_initialized : exn :=
  mk_exn RuntimeError "Kachy client not initialized. Call kachy.init() first.".

(** Lines 24-35. *)
Definition get_client (_client : option KachyClient) : result KachyClient :=
  match _client with
  | None => Raise not_initialized
  | Some c => Ok c
  end.

(** Lines 38-46. *)
Definition set (_client : option KachyClient) (key value : string) (ex : option Z)
    : M pyval :=
  let! c := lift (get_client _client) in
  let! m := lift (Client.getattr "set") in
  match m with
  | Client.MSet f => f c key value ex
  | _ => lift (Raise Client.bad_call)
  end.

(** Lines 48-57. *)
Definition get (_client : option KachyClient) (key : string) : M pyval :=
  let! c := lift (get_client _client) in
  let! m := lift (Client.getattr "get") in
  match m with
  | Client.MKey f => f c key
  | _ => lift (Raise Client.bad_call)
  end.

(** Lines 59-68. *)
Definition delete (_client : option KachyClient) (key : string) : M pyval :=
  let! c := lift (get_client _client) in
  let! m := lift (Client.getattr "delete") in
  match m with
  | Client.MKey f => f c key
  | _ => lift (Raise Client.bad_call)
  end.

(** Lines 70-79. *)
Definition exists_ (_client : option KachyClient) (key : string) : M pyval :=
  let! c := lift (get_client _client) in
  let! m := lift (Client.getattr "exists") in
  match m with
  | Client.MKey f => f c key
  | _ => lift (Raise Client.bad_call)
  end.

(** Lines 81-91. *)
Definition expire (_client : option KachyClient) (key : string) (seconds : Z)
    : M pyval :=
  let! c := lift (get_client _client) in
  let! m := lift (Client.getattr "expire") in
  match m with
  | Client.MExpire f => f c key seconds
  | _ => lift (Raise Client.bad_call)
  end.

(** Lines 93-102. *)
Definition ttl (_client : option KachyClient) (key : string) : M pyval :=
  let! c := lift (get_client _client) in
  let! m := lift (Client.getattr "ttl") in
  match m with
  | Client.MKey f => f c key
  | _ => lift (Raise Client.bad_call)
  end.

(** Lines 104-114: the attribute looked up on the client is [valkey]. *)
Definition valkey (_client : option KachyClient) (cmd : string)
    (args : list pyval) : M pyval :=
  let! c := lift (get_client _client) in
  let! m := lift (Client.getattr "valkey") in
  match m with
  | Client.MCommand f => f c cmd args
  | _ => lift (Raise Client.bad_call)
  end.

(** Lines 116-122: the function object.  The name [pipeline] of the package
    stands for it until the submodule [kachy.pipeline] is imported (see
    [call_pipeline]). *)
Definition pipeline (_client : option KachyClient) : M KachyPipeline :=
  let! c := lift (get_client _client) in
  let! m := lift (Client.getattr "pipeline") in
  match m with
  | Client.MPipeline f => ret (f c)
  | _ => lift (Raise Client.bad_call)
  end.

(** Lines 124-127: the guard is on the global itself, not on [get_client]. *)
Definition close (_client : option KachyClient) : M unit :=
  match _client with
  | Some c =>
      let! m := lift (Client.getattr "close") in
      match m with
      | Client.MClose f => f c
      | _ => lift (Raise Client.bad_call)
      end
  | None => ret tt
  end.

(** [kachy.pipeline()] called by name.  Importing the submodule
    [kachy.pipeline] binds the attribute [pipeline] of the package to the
    module, over the function defined at lines 116-122: from then on the
    name is not callable. *)
Definition call_pipeline (loaded : list module_name) (_client : option KachyClient)
    : M KachyPipeline :=
  if bool_decide (kachy_pipeline ∈ loaded) then
    lift (Raise (mk_exn TypeError "'module' object is not callable"))
  else pipeline _client.

(** The convenience functions of [__all__] that stand on the global client,
    each with its arguments, and what a call returns. *)
Inductive call : Type :=
| CallSet (key value : string) (ex : option Z)
| CallGet (key : string)
| CallDelete (key : string)
| CallExists (key : string)
| CallExpire (key : string) (seconds : Z)
| CallTtl (key : string)
| CallValkey (cmd : string) (args : list pyval)
| CallPipeline
| CallClose.

Inductive returned : Type :=
| Value (v : pyval)
| PipelineObject (p : KachyPipeline)
| NoValue.

Definition run (_client : option KachyClient) (c : call) : M returned :=
  match c with
  | CallSet key value ex => let! v := set _client key value ex in ret (Value v)
  | CallGet key => let! v := get _client key in ret (Value v)
  | CallDelete key => let! v := delete _client key in ret (Value v)
  | CallExists key => let! v := exists_ _client key in ret (Value v)
  | CallExpire key seconds => let! v := expire _client key seconds in ret (Value v)
  | CallTtl key => let! v := ttl _client key in ret (Value v)
  | CallValkey cmd args => let! v := valkey _client cmd args in ret (Value v)
  | CallPipeline => let! p := pipeline _client in ret (PipelineObject p)
  | CallClose => let! _u := close _client in ret NoValue
  end.

End Kachy.

(** ** Concrete clients for the examples *)

Module Demo.

Definition cfg : KachyConfig :=
  mk_config (Some "secret") "https://api.klache.net" 30 3 1 10
    "kachy-valkey-python/0.1.0"
    (Config.default_headers "kachy-valkey-python/0.1.0").

(** What [json()] does on a body that is no JSON document. *)
Definition no_json : result pyval :=
  Raise (mk_exn ValueError "Expecting value: line 1 column 1 (char 0)").

(** The cause that urllib3 names when the retries are used up on a status;
    [requests] wraps it with the pool and the URL. *)
Definition too_many (request : http_request) (response : Response) : string :=
  "too many " +:+ pretty (status_code response) +:+ " error responses".

(** A network that gives every request, at every attempt, the same
    response (with a urllib3 that takes [method_whitelist]). *)
Definition answers (status : Z) (body : string) (parsed : result pyval) : Library :=
  mk_library true (fun _ _ _ => Responds (mk_response status body body parsed))
    too_many.

(** A network on which every exchange fails with [e]. *)
Definition failing (e : exn) : Library :=
  mk_library true (fun _ _ _ => Fails e) too_many.

(** A network that answers 503 twice and then 200 with [{}]. *)
Definition recovers : Library :=
  mk_library true
    (fun attempt _ _ =>
       if (attempt <? 2)%nat then
         Responds (mk_response 503 "busy" "busy" no_json)
       else Responds (mk_response 200 "{}" "{}" (Ok (PDict ∅))))
    too_many.

(** The interpreter as it is right after [import kachy]: no other module
    of the package is imported. *)
Definition fresh : list Kachy.module_name := [].

(** An interpreter in which the modules were brought in around the cycle. *)
Definition patched : list Kachy.module_name :=
  [Kachy.kachy_pipeline; Kachy.kachy_client; Kachy.kachy_config].

(** 204 No Content: an empty body. *)
Definition no_content : KachyClient :=
  Client.connected cfg
    (answers 204 "" no_json).

(** 200 with the JSON object [{}]: every expected field is missing. *)
Definition empty_object : KachyClient :=
  Client.connected cfg
    (answers 200 "{}" (Ok (PDict ∅))).

(** 200 with [{"results": ["OK", "v"]}]. *)
Definition two_results : KachyClient :=
  Client.connected cfg
    (answers 200 "{'results': ['OK', 'v']}"
       (Ok (PDict (<["results" := PList [PStr "OK"; PStr "v"]]> ∅)))).

Definition unauthorized : KachyClient :=
  Client.connected cfg
    (answers 401 "denied" no_json).

Definition not_found : KachyClient :=
  Client.connected cfg
    (answers 404 "no such route" no_json).

Definition timed_out : KachyClient :=
  Client.connected cfg
    (failing (mk_exn RequestsTimeout "read timed out")).

(** 200 with the JSON list [[]]: a body that parses, and is no object. *)
Definition json_list : KachyClient :=
  Client.connected cfg (answers 200 "[]" (Ok (PList []))).


(** Ctrl-C while the request is under way. *)
Definition interrupted : KachyClient :=
  Client.connected cfg (failing (mk_exn KeyboardInterrupt "")).

(** [pipe.set("k", "v").get("k")] on a client. *)
Definition set_then_get (c : KachyClient) : KachyPipeline :=
  Pipeline.get (Pipeline.set (Pipeline.__init__ c) "k" "v" None) "k".

(** A configuration before [__post_init__], with a headers override. *)
Definition with_override : KachyConfig :=
  mk_config (Some "secret") "https://api.klache.net" 30 3 1 10
    "kachy-valkey-python/0.1.0" (<["X-Trace" := "1"]> ∅).

(** A configuration before [__post_init__], with the empty credential. *)
Definition no_credential : KachyConfig :=
  mk_config (Some "") "https://api.klache.net" 30 3 1 10
    "kachy-valkey-python/0.1.0" ∅.

(** 200 with a body that is no JSON: [json()] of requests 2.27 and later
    raises a [RequestException]; earlier versions raise a [ValueError]. *)
Definition html_body : KachyClient :=
  Client.connected cfg
    (answers 200 "<html></html>" (Raise (mk_exn RequestException "Expecting value"))).

Definition html_body_old : KachyClient :=
  Client.connected cfg
    (answers 200 "<html></html>" no_json).

(** 200 with an object that has every field the operations read. *)
Definition all_fields : gmap string pyval :=
  <["success" := PBool true]>
    (<["value" := PStr "v"]>
       (<["deleted" := PBool true]>
          (<["exists" := PBool true]>
             (<["ttl" := PInt 42]>
                (<["result" := PStr "PONG"]> ∅))))).

Definition full_object : KachyClient :=
  Client.connected cfg
    (answers 200 "{...}" (Ok (PDict all_fields))).

(** [int] and [float] on the few strings the examples need. *)
Definition parse_int (s : string) : result Z :=
  if String.eqb s "30" then Ok 30%Z
  else if String.eqb s "3" then Ok 3%Z
  else if String.eqb s "10" then Ok 10%Z
  else Raise (mk_exn ValueError
                ("invalid literal for int() with base 10: '" +:+ s +:+ "'")).

Definition parse_float (s : string) : result Q :=
  if String.eqb s "1.0" then Ok 1%Q
  else Raise (mk_exn ValueError
                ("could not convert string to float: '" +:+ s +:+ "'")).

(** An environment with a timeout that is no number. *)
Definition bad_timeout : gmap string string :=
  <["KACHY_TIMEOUT" := "soon"]> ∅.

(** An environment that names another endpoint. *)
Definition staging : gmap string string :=
  <["KACHY_BASE_URL" := "https://staging.klache.net"]> ∅.

End Demo.

(** * Properties *)

(** ** The exception hierarchy *)

Lemma every_class_is_a_BaseException (c : exc_class) :
  issubclass c BaseException = true.
Proof. destruct c; reflexivity. Qed.

(** The classes that an [except Exception] lets pass. *)
Lemma outside_Exception (c : exc_class) :
  issubclass c Exception = false
  ↔ c = BaseException ∨ c = KeyboardInterrupt ∨ c = SystemExit.
Proof.
  split.
  - destruct c; cbn; intros H; try discriminate; auto.
  - intros [->|[->| ->]]; reflexivity.
Qed.

(** What derives from [RequestException] derives from [Exception]. *)
Lemma RequestException_is_Exception (c : exc_class) :
  issubclass c RequestException = true → issubclass c Exception = true.
Proof. destruct c; cbn; intros H; try discriminate; reflexivity. Qed.

Lemma issubclass_refl (c : exc_class) : issubclass c c = true.
Proof. destruct c; reflexivity. Qed.

(** ** The transport *)

(** Every call of [_make_request] is one call on the session, whatever the
    outcome. *)
Lemma make_request_logs_one_call (self : KachyClient) (method endpoint : string)
    (data : option pyval) (tr : trace) :
  (Client._make_request self method endpoint data tr).2
  = tr ++ [SessionRequest (Client.build_request self method endpoint data)].
Proof. reflexivity. Qed.

(** A response below 400 with a body that parses is returned as parsed. *)
Lemma make_request_returns_json (self : KachyClient) (method endpoint : string)
    (data : option pyval) (tr : trace) (response : Response) (v : pyval) :
  session self tr (Client.build_request self method endpoint data) = Responds response →
  (status_code response < 400)%Z →
  content response ≠ "" →
  json response = Ok v →
  (Client._make_request self method endpoint data tr).1 = Ok v.
Proof.
  intros Hsession Hstatus Hcontent Hjson.
  unfold Client._make_request. rewrite Hsession. cbn [fst].
  unfold Client.check_response.
  destruct (Z.eqb_spec (status_code response) 401) as [H401|_]; [lia|].
  destruct (Z.leb_spec 400 (status_code response)) as [H400|_]; [lia|].
  destruct (content response) as [|a body]; [contradiction|].
  rewrite Hjson. reflexivity.
Qed.

(** A response below 400 with an empty body is returned as [None]. *)
Lemma make_request_returns_None (self : KachyClient) (method endpoint : string)
    (data : option pyval) (tr : trace) (response : Response) :
  session self tr (Client.build_request self method endpoint data) = Responds response →
  (status_code response < 400)%Z →
  content response = "" →
  (Client._make_request self method endpoint data tr).1 = Ok PNone.
Proof.
  intros Hsession Hstatus Hcontent.
  unfold Client._make_request. rewrite Hsession. cbn [fst].
  unfold Client.check_response.
  destruct (Z.eqb_spec (status_code response) 401) as [H401|_]; [lia|].
  destruct (Z.leb_spec 400 (status_code response)) as [H400|_]; [lia|].
  rewrite Hcontent. reflexivity.
Qed.

(** ** Field extraction *)

Lemma py_get_present (d : gmap string pyval) (key : string) (dflt v : pyval) :
  d !! key = Some v → py_get (PDict d) key dflt = Ok v.
Proof. intros H. cbn. rewrite H. reflexivity. Qed.

Lemma py_get_absent (d : gmap string pyval) (key : string) (dflt : pyval) :
  d !! key = None → py_get (PDict d) key dflt = Ok dflt.
Proof. intros H. cbn. rewrite H. reflexivity. Qed.

Lemma py_get_not_a_dict (v : pyval) (key : string) (dflt : pyval) :
  (∀ d, v ≠ PDict d) →
  py_get v key dflt
  = Raise (mk_exn AttributeError
             ("'" +:+ type_name v +:+ "' object has no attribute 'get'")).
Proof. intros H. destruct v; try reflexivity. exfalso. eapply H. reflexivity. Qed.

(** The part of the extraction contract that the code keeps: when the
    transport returns a JSON object without the field, the operation returns
    the default.  Stated for [ttl]; the other operations differ in the field
    and the default only. *)
Lemma ttl_field_absent (self : KachyClient) (key : string) (tr : trace)
    (d : gmap string pyval) :
  (Client._make_request self "GET" ("/valkey/ttl/" +:+ key) None tr).1 = Ok (PDict d) →
  d !! "ttl" = None →
  (Client.ttl self key tr).1 = Ok (PInt (-2)).
Proof.
  intros Hreq Habsent. unfold Client.ttl, bind, lift.
  destruct (Client._make_request self "GET" ("/valkey/ttl/" +:+ key) None tr)
    as [r tr'] eqn:E.
  cbn [fst] in Hreq. subst r. cbn [fst].
  apply py_get_absent, Habsent.
Qed.

Example defaults_on_empty_object :
  (Client.set Demo.empty_object "k" "v" None []).1 = Ok (PBool false)
  ∧ (Client.get Demo.empty_object "k" []).1 = Ok PNone
  ∧ (Client.delete Demo.empty_object "k" []).1 = Ok (PBool false)
  ∧ (Client.exists_ Demo.empty_object "k" []).1 = Ok (PBool false)
  ∧ (Client.expire Demo.empty_object "k" 60 []).1 = Ok (PBool false)
  ∧ (Client.ttl Demo.empty_object "k" []).1 = Ok (PInt (-2))
  ∧ (Client.redis Demo.empty_object "ping" [] []).1 = Ok PNone.
Proof. repeat split; vm_compute; reflexivity. Qed.

(** When the transport returns [None], [.get] is called on [None]. *)
Lemma none_has_no_get (m : M pyval) (key : string) (dflt : pyval) (tr : trace) :
  (m tr).1 = Ok PNone →
  ((let! result := m in lift (py_get result key dflt)) tr).1
  = Raise (mk_exn AttributeError "'NoneType' object has no attribute 'get'").
Proof.
  intros H. unfold bind, lift. destruct (m tr) as [r tr'].
  cbn [fst] in H. subst r. reflexivity.
Qed.

(** C1 (the code departs from the claim).  The claim: whenever the transport
    returns without raising, an empty body included, each operation returns
    its default and does not raise.  On a 204 response with an empty body the
    transport returns [None], and each of the seven operations raises
    [AttributeError] instead of returning its default. *)
Theorem C1_empty_body_raises_AttributeError :
  let e := mk_exn AttributeError "'NoneType' object has no attribute 'get'" in
  (Client._make_request Demo.no_content "GET" "/valkey/ttl/k" None []).1 = Ok PNone
  ∧ (Client.set Demo.no_content "k" "v" None []).1 = Raise e
  ∧ (Client.get Demo.no_content "k" []).1 = Raise e
  ∧ (Client.delete Demo.no_content "k" []).1 = Raise e
  ∧ (Client.exists_ Demo.no_content "k" []).1 = Raise e
  ∧ (Client.expire Demo.no_content "k" 60 []).1 = Raise e
  ∧ (Client.ttl Demo.no_content "k" []).1 = Raise e
  ∧ (Client.redis Demo.no_content "ping" [] []).1 = Raise e.
Proof.
  cbv zeta. split.
  - apply (make_request_returns_None _ _ _ _ _
             (mk_response 204 "" "" Demo.no_json)); reflexivity.
  - repeat split; apply none_has_no_get;
      apply (make_request_returns_None _ _ _ _ _
               (mk_response 204 "" "" Demo.no_json)); reflexivity.
Qed.

(** ** The pipeline *)

(** The builders append at the end and touch nothing else. *)
Lemma append_commands (p : KachyPipeline) (cmd : command) :
  commands (Pipeline.append p cmd) = commands p ++ [cmd]
  ∧ client (Pipeline.append p cmd) = client p.
Proof. split; reflexivity. Qed.

(** The serialized entries follow the order of the commands. *)
Lemma batch_entry_at (cmds : list command) (i : nat) (cmd : command) :
  cmds !! i = Some cmd →
  (Pipeline.entry <$> cmds) !! i = Some (Pipeline.entry cmd).
Proof. intros H. rewrite list_lookup_fmap, H. reflexivity. Qed.

Lemma batch_length (cmds : list command) :
  length (Pipeline.entry <$> cmds) = length cmds.
Proof. apply length_fmap. Qed.

(** [flush] is one transport call. *)
Lemma flush_logs_one_call (p : KachyPipeline) (tr : trace) :
  (Pipeline.flush p tr).2
  = tr ++ [SessionRequest
             (Client.build_request (client p) "POST" "/valkey/pipeline"
                (Some (Pipeline.batch (commands p))))].
Proof.
  unfold Pipeline.flush, bind, lift.
  pose proof (make_request_logs_one_call (client p) "POST" "/valkey/pipeline"
                (Some (Pipeline.batch (commands p))) tr) as Hlog.
  destruct (Client._make_request (client p) "POST" "/valkey/pipeline"
              (Some (Pipeline.batch (commands p))) tr) as [[v|e] tr'];
    cbn [snd] in *; exact Hlog.
Qed.

(** On a non-empty pipeline [execute] is [flush] with the clearing of lines
    137 and 143: the outcome and the log are those of the flush; the
    commands are dropped unless the flush raised outside [Exception], which
    the handler of line 141 does not catch. *)
Lemma execute_nonempty (p : KachyPipeline) (tr : trace) :
  commands p ≠ [] →
  Pipeline.execute p tr
  = ((Pipeline.flush p tr).1,
     match (Pipeline.flush p tr).1 with
     | Ok _ => Pipeline.clear p
     | Raise e => if isinstance e Exception then Pipeline.clear p else p
     end,
     (Pipeline.flush p tr).2).
Proof.
  intros Hne. unfold Pipeline.execute.
  destruct (commands p) as [|cmd rest]; [contradiction|].
  destruct (Pipeline.flush p tr) as [[results|e] tr']; cbn [fst snd].
  - reflexivity.
  - destruct (isinstance e Exception); reflexivity.
Qed.

(** The guard of line 118. *)
Lemma execute_guard (p : KachyPipeline) (tr : trace) :
  commands p = [] →
  Pipeline.execute p tr = (Ok (PList []), p, tr).
Proof. intros Hempty. unfold Pipeline.execute. rewrite Hempty. reflexivity. Qed.

(** C8.  On a pipeline with no accumulated command, [execute] returns the
    empty list at once: the session log is unchanged (no transport call) and
    so is the pipeline. *)
Theorem C8_execute_empty (p : KachyPipeline) (tr : trace) :
  commands p = [] →
  Pipeline.execute p tr = (Ok (PList []), p, tr)
  ∧ (Pipeline.execute p tr).2 = tr.
Proof.
  intros Hempty. rewrite (execute_guard p tr Hempty). split; reflexivity.
Qed.

Lemma C8_execute_empty_witness :
  commands (Pipeline.__init__ Demo.timed_out) = []
  ∧ Pipeline.execute (Pipeline.__init__ Demo.timed_out) []
    = (Ok (PList []), Pipeline.__init__ Demo.timed_out, []).
Proof.
  split; [reflexivity|].
  apply (C8_execute_empty (Pipeline.__init__ Demo.timed_out) []). reflexivity.
Defined.

(** C2 (as stated it fails; see the amended statement below).  The claim:
    after [execute] on a non-empty pipeline, whether it returned or raised
    any exception, the commands are empty and a second [execute] sends
    nothing.  The handler of line 141 is [except Exception]: when the flush
    is interrupted ([KeyboardInterrupt]), the commands stay, and the second
    [execute] sends the batch again. *)
Lemma C2_interrupt_leaves_commands :
  commands (Demo.set_then_get Demo.interrupted) ≠ []
  ∧ Pipeline.execute (Demo.set_then_get Demo.interrupted) []
    = (Raise (mk_exn KeyboardInterrupt ""),
       Demo.set_then_get Demo.interrupted,
       [SessionRequest
          (Client.build_request Demo.interrupted "POST" "/valkey/pipeline"
             (Some (Pipeline.batch (commands (Demo.set_then_get Demo.interrupted)))))])
  ∧ length
      (Pipeline.execute (Demo.set_then_get Demo.interrupted)
         (Pipeline.execute (Demo.set_then_get Demo.interrupted) []).2).2 = 2.
Proof. split; [discriminate|]. split; vm_compute; reflexivity. Qed.

(** C2, amended.  After [execute] on a pipeline with at least one command,
    when it returned or raised an exception that derives from [Exception],
    the accumulated commands are empty, and a second [execute] right after
    returns the empty list without a transport call (the log stays as the
    first call left it).  An exception outside [Exception] goes through with
    the pipeline as it was. *)
Theorem C2_execute_clears_on_Exception (p : KachyPipeline) (tr : trace) :
  commands p ≠ [] →
  let '(r, p', tr') := Pipeline.execute p tr in
  ((∀ e, r = Raise e → isinstance e Exception = true) →
   commands p' = []
   ∧ Pipeline.execute p' tr' = (Ok (PList []), p', tr'))
  ∧ (∀ e, r = Raise e → isinstance e Exception = false → p' = p).
Proof.
  intros Hne. rewrite (execute_nonempty p tr Hne).
  destruct (Pipeline.flush p tr).1 as [results|e] eqn:Hflush.
  - split.
    + intros _. split; [reflexivity|]. apply execute_guard. reflexivity.
    + intros e He. discriminate.
  - split.
    + intros Hcaught. rewrite (Hcaught e eq_refl).
      split; [reflexivity|]. apply execute_guard. reflexivity.
    + intros e' He' Hpass. injection He' as <-. rewrite Hpass. reflexivity.
Qed.

(** The first [execute] raises (the request times out), the second finds
    nothing to send. *)
Lemma C2_execute_clears_on_Exception_witness :
  commands (Demo.set_then_get Demo.timed_out) ≠ []
  ∧ (let '(_, p', tr') := Pipeline.execute (Demo.set_then_get Demo.timed_out) [] in
     commands p' = []
     ∧ Pipeline.execute p' tr' = (Ok (PList []), p', tr'))
  ∧ (Pipeline.execute (Demo.set_then_get Demo.interrupted) []).1.2
    = Demo.set_then_get Demo.interrupted.
Proof.
  split; [discriminate|].
  pose proof (C2_execute_clears_on_Exception (Demo.set_then_get Demo.timed_out) []
                ltac:(discriminate)) as Hcaught.
  pose proof (C2_execute_clears_on_Exception (Demo.set_then_get Demo.interrupted) []
                ltac:(discriminate)) as Hpassed.
  split.
  - destruct (Pipeline.execute (Demo.set_then_get Demo.timed_out) [])
      as [[r p'] tr'] eqn:Hexec.
    apply (proj1 Hcaught). intros e He.
    assert (Hr : r = Raise (mk_exn KachyConnectionError "Request failed: read timed out")).
    { apply (f_equal (λ x, x.1.1)) in Hexec. cbn [fst] in Hexec. rewrite <- Hexec.
      vm_compute. reflexivity. }
    rewrite Hr in He. injection He as <-. reflexivity.
  - destruct (Pipeline.execute (Demo.set_then_get Demo.interrupted) [])
      as [[r p'] tr'] eqn:Hexec.
    cbn [fst snd].
    apply (proj2 Hpassed (mk_exn KeyboardInterrupt "")); [|reflexivity].
    apply (f_equal (λ x, x.1.1)) in Hexec. cbn [fst] in Hexec. rewrite <- Hexec.
    vm_compute. reflexivity.
Defined.

(** Both exits occur: the same pipeline raises on a session that times out
    and returns on one that answers, and is empty afterwards in both. *)
Example execute_raises_and_clears :
  let '(r, p', tr') := Pipeline.execute (Demo.set_then_get Demo.timed_out) [] in
  r = Raise (mk_exn KachyConnectionError "Request failed: read timed out")
  ∧ commands p' = [] ∧ length tr' = 1.
Proof. vm_compute. repeat split. Qed.

Example execute_returns_and_clears :
  let '(r, p', tr') := Pipeline.execute (Demo.set_then_get Demo.two_results) [] in
  r = Ok (PList [PStr "OK"; PStr "v"])
  ∧ commands p' = [] ∧ length tr' = 1.
Proof. vm_compute. repeat split. Qed.

(** What [execute] does on a pipeline with at least one command, whatever
    the session answers: exactly one transport call, a POST to
    /valkey/pipeline whose body is [{"commands": [{"command": name, "args":
    args}, ...]}] with one entry per accumulated command, in the order of
    accumulation; and when the response is a JSON object, the result is its
    [results] field as it came, or the empty list when the field is
    absent. *)
Lemma execute_one_ordered_request (p : KachyPipeline) (tr : trace) :
  commands p ≠ [] →
  let entries :=
    (λ cmd : command,
       PDict (<["args" := PList cmd.2]> (<["command" := PStr cmd.1]> ∅)))
      <$> commands p in
  let request :=
    mk_request "POST"
      (base_url (config (client p)) +:+ "/valkey/pipeline")
      (<["Authorization" :=
           "Bearer " +:+ Client.format_key (access_key (config (client p)))]>
         (headers (config (client p))))
      (Some (PDict (<["commands" := PList entries]> ∅)))
      (timeout (config (client p))) in
  (Pipeline.execute p tr).2 = tr ++ [SessionRequest request]
  ∧ length entries = length (commands p)
  ∧ (∀ i cmd, commands p !! i = Some cmd →
       entries !! i
       = Some (PDict (<["args" := PList cmd.2]> (<["command" := PStr cmd.1]> ∅))))
  ∧ (∀ response d,
       session (client p) tr request = Responds response →
       (status_code response < 400)%Z →
       content response ≠ "" →
       json response = Ok (PDict d) →
       (Pipeline.execute p tr).1.1 = Ok (default (PList []) (d !! "results"))).
Proof.
  intros Hne entries request.
  rewrite (execute_nonempty p tr Hne). cbn [fst snd].
  split; [apply flush_logs_one_call|].
  split; [apply batch_length|].
  split; [intros i cmd Hi; apply (batch_entry_at _ _ _ Hi)|].
  intros response d Hsession Hstatus Hcontent Hjson.
  pose proof (make_request_returns_json (client p) "POST" "/valkey/pipeline"
                (Some (Pipeline.batch (commands p))) tr response (PDict d)
                Hsession Hstatus Hcontent Hjson) as Hreq.
  unfold Pipeline.flush, bind, lift.
  destruct (Client._make_request (client p) "POST" "/valkey/pipeline"
              (Some (Pipeline.batch (commands p))) tr) as [v tr'].
  cbn [fst] in Hreq. subst v. reflexivity.
Qed.

(** C3 (the code departs from the claim).  The claim: on a non-empty
    pipeline [execute] issues one POST with the commands in order and
    returns the [results] field of the response, or the empty list when
    that field is absent.  The request is as claimed
    ([execute_one_ordered_request]); but on a response with an empty body,
    which has no [results] field, the transport returns [None] and
    [execute] raises [AttributeError] instead of returning the empty list.
    The same holds for a JSON body that is not an object, here the JSON
    list [[]]. *)
Theorem C3_execute_raises_without_results_field :
  let p := Demo.set_then_get Demo.no_content in
  commands p ≠ []
  ∧ (Pipeline.execute p []).2
    = [SessionRequest
         (Client.build_request Demo.no_content "POST" "/valkey/pipeline"
            (Some (Pipeline.batch (commands p))))]
  ∧ (Client._make_request Demo.no_content "POST" "/valkey/pipeline"
       (Some (Pipeline.batch (commands p))) []).1 = Ok PNone
  ∧ (Pipeline.execute p []).1.1
    = Raise (mk_exn AttributeError "'NoneType' object has no attribute 'get'")
  ∧ (Pipeline.execute (Demo.set_then_get Demo.json_list) []).1.1
    = Raise (mk_exn AttributeError "'list' object has no attribute 'get'").
Proof.
  cbv zeta.
  assert (Hne : commands (Demo.set_then_get Demo.no_content) ≠ []) by discriminate.
  assert (Hnone : (Client._make_request Demo.no_content "POST" "/valkey/pipeline"
                     (Some (Pipeline.batch (commands (Demo.set_then_get Demo.no_content))))
                     []).1 = Ok PNone).
  { apply (make_request_returns_None _ _ _ _ _
             (mk_response 204 "" "" Demo.no_json)); reflexivity. }
  split; [exact Hne|].
  split; [rewrite (execute_nonempty _ _ Hne); apply flush_logs_one_call|].
  split; [exact Hnone|].
  split.
  - rewrite (execute_nonempty _ _ Hne). cbn [fst].
    unfold Pipeline.flush. apply none_has_no_get. exact Hnone.
  - vm_compute. reflexivity.
Qed.

(** What the single-call [set] sends: one POST to /valkey/set whose body has
    the [ex] key exactly when an expiration is given. *)
Lemma client_set_request (self : KachyClient) (key value : string) (ex : option Z)
    (tr : trace) :
  ∃ d : gmap string pyval,
    (Client.set self key value ex tr).2
    = tr ++ [SessionRequest
               (Client.build_request self "POST" "/valkey/set" (Some (PDict d)))]
    ∧ d !! "key" = Some (PStr key)
    ∧ d !! "value" = Some (PStr value)
    ∧ d !! "ex" = PInt <$> ex.
Proof.
  unfold Client.set.
  set (d := match ex with
            | Some n => <["ex" := PInt n]> (<["value" := PStr value]> (<["key" := PStr key]> ∅))
            | None => <["value" := PStr value]> (<["key" := PStr key]> ∅)
            end : gmap string pyval).
  exists d. split.
  - unfold bind, lift.
    pose proof (make_request_logs_one_call self "POST" "/valkey/set"
                  (Some (PDict d)) tr) as Hlog.
    destruct (Client._make_request self "POST" "/valkey/set" (Some (PDict d)) tr)
      as [[v|e] tr']; cbn [snd] in *; exact Hlog.
  - unfold d. destruct ex as [n|]; cbn [fmap option_fmap option_map];
      repeat split; simplify_map_eq; reflexivity.
Qed.

(** C10.  The pipeline's [set] without an expiration appends the command
    SET with the three arguments [key, value, None]: the serialized entry
    carries the expiration slot as null.  The single-call [set] without an
    expiration sends a body with [key] and [value] and no [ex] key. *)
Theorem C10_pipeline_set_null_expiration (p : KachyPipeline) (self : KachyClient)
    (key value : string) (tr : trace) :
  commands (Pipeline.set p key value None)
  = commands p ++ [("SET", [PStr key; PStr value; PNone])]
  ∧ Pipeline.entry <$> commands (Pipeline.set p key value None)
    = (Pipeline.entry <$> commands p)
        ++ [PDict (<["args" := PList [PStr key; PStr value; PNone]]>
                     (<["command" := PStr "SET"]> ∅))]
  ∧ length [PStr key; PStr value; PNone] = 3
  ∧ ∃ d : gmap string pyval,
      (Client.set self key value None tr).2
      = tr ++ [SessionRequest
                 (Client.build_request self "POST" "/valkey/set" (Some (PDict d)))]
      ∧ d !! "ex" = None
      ∧ d !! "key" = Some (PStr key)
      ∧ d !! "value" = Some (PStr value).
Proof.
  split; [reflexivity|].
  split.
  { unfold Pipeline.set. destruct (append_commands p
      ("SET", [PStr key; PStr value; of_optional_int None])) as [-> _].
    rewrite fmap_app. reflexivity. }
  split; [reflexivity|].
  destruct (client_set_request self key value None tr) as (d & Hlog & Hk & Hv & Hex).
  exists d. auto.
Qed.

(** ** Error classification in the transport *)

(** What [__init__] returns, when it returns, is the client on the mounted
    session. *)
Lemma client_init_inv (lib : Library) (cfg : KachyConfig) (self : KachyClient) :
  Client.__init__ lib cfg = Ok self →
  accepts_method_whitelist lib = true ∧ self = Client.connected cfg lib.
Proof.
  unfold Client.__init__, Client._create_session.
  destruct (accepts_method_whitelist lib); cbn [rbind]; [|discriminate].
  intros H. injection H as <-. split; reflexivity.
Qed.




(** A server that is busy twice and then answers: the retries hide the two
    503 responses from [_make_request]. *)
Example retries_hide_transient_errors :
  (Client._make_request (Client.connected Demo.cfg Demo.recovers)
     "GET" "/valkey/get/k" None []).1 = Ok (PDict ∅).
Proof. vm_compute. reflexivity. Qed.

(** With a urllib3 that no longer takes [method_whitelist], no client is
    constructed. *)
Lemma client_init_rejected_keyword (lib : Library) (cfg : KachyConfig) :
  accepts_method_whitelist lib = false →
  exc_type <$> exception_of (Client.__init__ lib cfg) = Some TypeError.
Proof.
  intros Hflag. unfold Client.__init__, Client._create_session.
  rewrite Hflag. reflexivity.
Qed.




(** ** The convenience functions *)

(** The two submodules import each other: as long as neither is imported,
    [from .client import KachyClient] fails, and leaves both unimported. *)
Lemma import_client_fails (loaded : list Kachy.module_name) :
  Kachy.kachy_client ∉ loaded →
  Kachy.kachy_pipeline ∉ loaded →
  ∃ loaded',
    (Kachy.import_from 3 [] loaded Kachy.kachy_client "KachyClient"
     = (Raise (Kachy.circular_import Kachy.kachy_client "KachyClient"), loaded'))
    ∧ (Kachy.kachy_client ∉ loaded')
    ∧ (Kachy.kachy_pipeline ∉ loaded').
Proof.
  intros Hclient Hpipeline.
  cbn [Kachy.import_from Kachy.imports].
  rewrite (bool_decide_eq_false_2 _ Hclient).
  rewrite (bool_decide_eq_false_2 (Kachy.kachy_client ∈ [])) by apply not_elem_of_nil.
  destruct (bool_decide (Kachy.kachy_config ∈ loaded)) eqn:Hconfig.
  - rewrite (bool_decide_eq_false_2 _ Hpipeline).
    rewrite (bool_decide_eq_false_2 (Kachy.kachy_pipeline ∈ [Kachy.kachy_client])).
    2:{ rewrite elem_of_cons, elem_of_nil. intros [H|[]]. discriminate. }
    rewrite (bool_decide_eq_false_2 _ Hclient).
    rewrite (bool_decide_eq_true_2
               (Kachy.kachy_client ∈ [Kachy.kachy_pipeline; Kachy.kachy_client])).
    2:{ repeat constructor. }
    exists loaded. repeat split; assumption.
  - rewrite (bool_decide_eq_false_2 (Kachy.kachy_config ∈ [Kachy.kachy_client])).
    2:{ rewrite elem_of_cons, elem_of_nil. intros [H|[]]. discriminate. }
    assert (Hpipeline' : Kachy.kachy_pipeline ∉ Kachy.kachy_config :: loaded).
    { rewrite elem_of_cons. intros [H|H]; [discriminate|contradiction]. }
    assert (Hclient' : Kachy.kachy_client ∉ Kachy.kachy_config :: loaded).
    { rewrite elem_of_cons. intros [H|H]; [discriminate|contradiction]. }
    rewrite (bool_decide_eq_false_2 _ Hpipeline').
    rewrite (bool_decide_eq_false_2 (Kachy.kachy_pipeline ∈ [Kachy.kachy_client])).
    2:{ rewrite elem_of_cons, elem_of_nil. intros [H|[]]. discriminate. }
    rewrite (bool_decide_eq_false_2 _ Hclient').
    rewrite (bool_decide_eq_true_2
               (Kachy.kachy_client ∈ [Kachy.kachy_pipeline; Kachy.kachy_client])).
    2:{ repeat constructor. }
    exists (Kachy.kachy_config :: loaded). repeat split; assumption.
Qed.

(** [from .config import KachyConfig] never fails. *)
Lemma import_config_succeeds (loaded : list Kachy.module_name) :
  ∃ loaded',
    Kachy.import_from 3 [] loaded Kachy.kachy_config "KachyConfig" = (Ok tt, loaded')
    ∧ (∀ m, m ≠ Kachy.kachy_config → m ∈ loaded' ↔ m ∈ loaded).
Proof.
  cbn [Kachy.import_from Kachy.imports].
  destruct (bool_decide (Kachy.kachy_config ∈ loaded)) eqn:Hconfig.
  - exists loaded. split; [reflexivity|]. intros m _. reflexivity.
  - rewrite (bool_decide_eq_false_2 (Kachy.kachy_config ∈ [])) by apply not_elem_of_nil.
    exists (Kachy.kachy_config :: loaded). split; [reflexivity|].
    intros m Hm. rewrite elem_of_cons. tauto.
Qed.

(** The bound on the nesting is never reached. *)
Lemma import_depth_suffices (loaded : list Kachy.module_name)
    (m : Kachy.module_name) (name : string) :
  (Kachy.import_from 3 [] loaded m name).1 ≠ Raise Kachy.too_deep.
Proof.
  destruct m; cbn [Kachy.import_from Kachy.imports];
    repeat (case_bool_decide; cbn);
    unfold Kachy.circular_import, Kachy.too_deep; intros Hdeep;
    try (inversion Hdeep; fail); exfalso; clear Hdeep; set_solver.
Qed.

(** The names that resolve on a client are those of the class body. *)
Lemma getattr_defined (name : string) :
  name ∈ ["set"; "get"; "delete"; "exists"; "expire"; "ttl"; "redis";
          "pipeline"; "close"] →
  ∃ m, Client.getattr name = Ok m.
Proof.
  intros H. repeat (apply elem_of_cons in H as [->|H]); try (eexists; reflexivity).
  apply elem_of_nil in H. contradiction.
Qed.

Lemma getattr_valkey :
  Client.getattr "valkey"
  = Raise (mk_exn AttributeError "'KachyClient' object has no attribute 'valkey'").
Proof. reflexivity. Qed.

(** C5 (as stated it fails; see the amended statement below).  The claim:
    each of the nine convenience functions raises the not-initialized error
    when no client is registered.  [close] guards on the global itself and
    returns without raising. *)
Lemma C5_close_before_init_returns :
  Kachy.run None Kachy.CallClose [] = (Ok Kachy.NoValue, [])
  ∧ (Kachy.run None Kachy.CallClose []).1 ≠ Raise Kachy.not_initialized.
Proof. split; [reflexivity|discriminate]. Qed.

(** C5, amended.  With no client registered, [set], [get], [delete],
    [exists], [expire], [ttl], [valkey] and [pipeline] raise the
    not-initialized [RuntimeError] without touching a session; [close]
    returns normally and does nothing. *)
Theorem C5_before_init (c : Kachy.call) (tr : trace) :
  Kachy.run None c tr
  = (match c with
     | Kachy.CallClose => Ok Kachy.NoValue
     | _ => Raise Kachy.not_initialized
     end, tr)
  ∧ exc_type Kachy.not_initialized = RuntimeError
  ∧ exc_str Kachy.not_initialized
    = "Kachy client not initialized. Call kachy.init() first.".
Proof. split; [destruct c; reflexivity|split; reflexivity]. Qed.

(** The client's own raw-command method does what the table of operations
    says: one POST to /valkey/exec with [{"command": upper(name), "args":
    args}], and the [result] field of a JSON object, [None] if absent. *)
Lemma redis_posts_exec (self : KachyClient) (cmd : string) (args : list pyval)
    (tr : trace) :
  let body := PDict (<["args" := PList args]> (<["command" := PStr (upper cmd)]> ∅)) in
  (Client.redis self cmd args tr).2
  = tr ++ [SessionRequest (Client.build_request self "POST" "/valkey/exec" (Some body))]
  ∧ ∀ d, (Client._make_request self "POST" "/valkey/exec" (Some body) tr).1
         = Ok (PDict d) →
         (Client.redis self cmd args tr).1 = Ok (default PNone (d !! "result")).
Proof.
  intros body. unfold Client.redis, bind, lift. fold body.
  pose proof (make_request_logs_one_call self "POST" "/valkey/exec" (Some body) tr)
    as Hlog.
  destruct (Client._make_request self "POST" "/valkey/exec" (Some body) tr)
    as [[v|e] tr']; cbn [fst snd] in *.
  - split; [exact Hlog|]. intros d Hd. inversion Hd; subst. reflexivity.
  - split; [exact Hlog|]. intros d Hd. discriminate.
Qed.

(** C6 (the code departs from the claim).  The claim: after [init], the free
    function [valkey] delegates to the client's raw-command operation and
    issues one POST to /valkey/exec.  The function looks up the attribute
    [valkey] on the client, while the class names that method [redis]: for
    every registered client, command and arguments, the call raises
    [AttributeError] and no request is made. *)
Theorem C6_valkey_raises_AttributeError (c : KachyClient) (cmd : string)
    (args : list pyval) (tr : trace) :
  Kachy.valkey (Some c) cmd args tr
  = (Raise (mk_exn AttributeError "'KachyClient' object has no attribute 'valkey'"),
     tr)
  ∧ (Client.redis c cmd args tr).2
    = tr ++ [SessionRequest
               (Client.build_request c "POST" "/valkey/exec"
                  (Some (PDict (<["args" := PList args]>
                                  (<["command" := PStr (upper cmd)]> ∅)))))].
Proof.
  split; [reflexivity|].
  apply (redis_posts_exec c cmd args tr).
Qed.

(** The failing input of C6, from [init] on, in an interpreter where the
    modules were brought in around their cycle: [kachy.init("secret")] and
    then [kachy.valkey("ping")], on a server that would answer. *)
Example valkey_after_init :
  ∃ c g loaded,
    Kachy.init (Demo.answers 200 "{}" (Ok (PDict ∅))) ∅ Demo.parse_int
      Demo.parse_float Demo.patched None (Some "secret") Config.no_kwargs
    = (Ok c, g, loaded)
    ∧ Kachy.valkey g "ping" [] []
      = (Raise (mk_exn AttributeError
                  "'KachyClient' object has no attribute 'valkey'"), []).
Proof. eexists _, _, _. split; vm_compute; reflexivity. Qed.

(** ** Configuration *)

Lemma truthy_spec (k : option string) :
  Config.truthy k = false ↔ k = None ∨ k = Some "".
Proof.
  destruct k as [[|a s]|]; cbn; split; intros H; try reflexivity; auto;
    try discriminate; destruct H as [H|H]; discriminate.
Qed.

(** C7 (as stated it fails; see the amended statement below).  The claim:
    with an explicit non-empty headers override the resulting mapping holds
    the default headers merged with the override.  With the override
    [{"X-Trace": "1"}] the resulting mapping has none of the three default
    headers. *)
Lemma C7_override_drops_default_headers :
  Config.truthy (access_key Demo.with_override) = true
  ∧ headers Demo.with_override ≠ ∅
  ∧ ∃ cfg, Config.__post_init__ Demo.with_override = Ok cfg
           ∧ headers cfg !! "X-Trace" = Some "1"
           ∧ headers cfg !! "User-Agent" = None
           ∧ headers cfg !! "Accept" = None
           ∧ headers cfg !! "Content-Type" = None.
Proof.
  split; [reflexivity|]. split.
  - intros H. apply (f_equal (λ m : gmap string string, m !! "X-Trace")) in H.
    discriminate.
  - exists Demo.with_override. repeat split; reflexivity.
Qed.

(** C7, amended.  For a configuration constructed with a non-empty
    credential: a non-empty headers override is kept as it is, and is the
    whole resulting mapping (no default header is added); the default
    headers User-Agent, Accept and Content-Type are the resulting mapping
    when the override is empty or not given. *)
Theorem C7_headers_override_replaces_defaults (self : KachyConfig) :
  Config.truthy (access_key self) = true →
  (headers self ≠ ∅ →
   ∃ cfg, Config.__post_init__ self = Ok cfg ∧ headers cfg = headers self)
  ∧ (headers self = ∅ →
     ∃ cfg, Config.__post_init__ self = Ok cfg
            ∧ headers cfg
              = <["Content-Type" := "application/json"]>
                  (<["Accept" := "application/json"]>
                     (<["User-Agent" := user_agent self]> ∅))).
Proof.
  intros Hkey. unfold Config.__post_init__. rewrite Hkey. cbn [negb].
  split; intros Hheaders.
  - rewrite bool_decide_eq_false_2 by exact Hheaders. exists self. auto.
  - rewrite bool_decide_eq_true_2 by exact Hheaders. eexists. split; reflexivity.
Qed.

Lemma C7_headers_override_replaces_defaults_witness :
  Config.truthy (access_key Demo.with_override) = true
  ∧ ∃ cfg, Config.__post_init__ Demo.with_override = Ok cfg
           ∧ headers cfg = <["X-Trace" := "1"]> ∅.
Proof.
  split; [reflexivity|].
  apply (proj1 (C7_headers_override_replaces_defaults Demo.with_override eq_refl)).
  intros H. apply (f_equal (λ m : gmap string string, m !! "X-Trace")) in H.
  discriminate.
Defined.

(** The same through the constructor: whatever the other fields are, an
    override given as a keyword argument is the header mapping of the
    configuration that results. *)
Lemma init_headers_override (environ : gmap string string)
    (int_ : string → result Z) (float_ : string → result Q)
    (key : option string) (kw : Config.kwargs) (h : gmap string string)
    (cfg : KachyConfig) :
  Config.kw_headers kw = Some h →
  h ≠ ∅ →
  Config.__init__ environ int_ float_ key kw = Ok cfg →
  headers cfg = h.
Proof.
  intros Hkw Hne. unfold Config.__init__. rewrite Hkw.
  change (Config.field (Some h) (Ok ∅)) with (Ok h : result (gmap string string)).
  repeat match goal with
         | |- context [Config.field ?given ?factory] =>
             destruct (Config.field given factory); cbn [rbind];
             [|discriminate]
         end.
  unfold Config.__post_init__. cbn [access_key headers].
  destruct (negb (Config.truthy key)); [discriminate|].
  rewrite bool_decide_eq_false_2 by exact Hne.
  intros H. inversion H. reflexivity.
Qed.

(** The credential check of lines 27-28, on any state of the fields. *)
Lemma post_init_credential (self : KachyConfig) :
  (Config.truthy (access_key self) = false →
   Config.__post_init__ self
   = Raise (mk_exn ValueError "KACHY_ACCESS_KEY is required"))
  ∧ (Config.truthy (access_key self) = true →
     ∃ cfg, Config.__post_init__ self = Ok cfg ∧ access_key cfg = access_key self).
Proof.
  unfold Config.__post_init__. split; intros Hkey; rewrite Hkey; cbn [negb].
  - reflexivity.
  - destruct (bool_decide (headers self = ∅)); eexists; split; reflexivity.
Qed.

(** How the generated [__init__] ends: in an exception that [int] or
    [float] raised on an environment value, or in [__post_init__]. *)
Lemma init_cases (environ : gmap string string) (int_ : string → result Z)
    (float_ : string → result Q) (key : option string) (kw : Config.kwargs) :
  (∃ e t, Config.__init__ environ int_ float_ key kw = Raise e
          ∧ (int_ t = Raise e ∨ float_ t = Raise e))
  ∨ (∃ self, access_key self = key
             ∧ Config.__init__ environ int_ float_ key kw = Config.__post_init__ self).
Proof.
  unfold Config.__init__, Config.field.
  destruct (Config.kw_base_url kw); cbn [rbind];
    (destruct (Config.kw_timeout kw);
     [|destruct (int_ (Config.environ_get environ "KACHY_TIMEOUT" "30")) eqn:?];
     cbn [rbind]; [| |left; eexists _, _; split; [reflexivity|left; eassumption]]);
    (destruct (Config.kw_max_retries kw);
     [|destruct (int_ (Config.environ_get environ "KACHY_MAX_RETRIES" "3")) eqn:?];
     cbn [rbind]; [| |left; eexists _, _; split; [reflexivity|left; eassumption]]);
    (destruct (Config.kw_retry_delay kw);
     [|destruct (float_ (Config.environ_get environ "KACHY_RETRY_DELAY" "1.0")) eqn:?];
     cbn [rbind]; [| |left; eexists _, _; split; [reflexivity|right; eassumption]]);
    (destruct (Config.kw_pool_size kw);
     [|destruct (int_ (Config.environ_get environ "KACHY_POOL_SIZE" "10")) eqn:?];
     cbn [rbind]; [| |left; eexists _, _; split; [reflexivity|left; eassumption]]);
    destruct (Config.kw_user_agent kw), (Config.kw_headers kw); cbn [rbind];
    right; eexists (mk_config key _ _ _ _ _ _ _); split; reflexivity.
Qed.

(** C9 (as stated it fails; see the amended statement below).  The claim:
    constructing a configuration with an empty or missing credential raises
    a validation error of the library's base error kind.  The exception
    raised is a [ValueError], which is neither [KachyError] nor derived
    from it. *)
Lemma C9_empty_credential_is_not_a_KachyError :
  ∃ e,
    Config.__init__ ∅ Demo.parse_int Demo.parse_float (Some "") Config.no_kwargs
    = Raise e
    ∧ exc_type e = ValueError
    ∧ isinstance e KachyError = false.
Proof. eexists. split; [vm_compute; reflexivity|]. split; reflexivity. Qed.

(** C9, amended.  [int] and [float] on a string raise nothing but
    [ValueError].  Constructing a configuration with an empty or missing
    ([None]) credential then raises a [ValueError], a class outside the
    library's own hierarchy under [KachyError].  Constructing one with a
    non-empty credential does not raise for the credential: it succeeds and
    keeps the credential, or it raises what [int] or [float] raised on an
    environment value. *)
Theorem C9_credential_validation (environ : gmap string string)
    (int_ : string → result Z) (float_ : string → result Q)
    (key : option string) (kw : Config.kwargs) :
  (∀ t e, int_ t = Raise e → exc_type e = ValueError) →
  (∀ t e, float_ t = Raise e → exc_type e = ValueError) →
  (key = None ∨ key = Some "" →
   ∃ e, Config.__init__ environ int_ float_ key kw = Raise e
        ∧ exc_type e = ValueError
        ∧ isinstance e KachyError = false)
  ∧ (∀ s, key = Some s → s ≠ "" →
          (∃ cfg, Config.__init__ environ int_ float_ key kw = Ok cfg
                  ∧ access_key cfg = Some s)
          ∨ (∃ e t, Config.__init__ environ int_ float_ key kw = Raise e
                    ∧ (int_ t = Raise e ∨ float_ t = Raise e)))
  ∧ issubclass ValueError Exception = true
  ∧ issubclass ValueError KachyError = false
  ∧ issubclass KachyError ValueError = false.
Proof.
  intros Hint Hfloat.
  split; [|split; [|repeat split]].
  - intros Hkey. apply truthy_spec in Hkey.
    destruct (init_cases environ int_ float_ key kw)
      as [(e & t & Hraise & Hfactory)|(self & Hself & Hpost)].
    + exists e. split; [exact Hraise|].
      assert (Hclass : exc_type e = ValueError).
      { destruct Hfactory as [H|H]; [apply (Hint t e H)|apply (Hfloat t e H)]. }
      split; [exact Hclass|]. unfold isinstance. rewrite Hclass. reflexivity.
    + rewrite <- Hself in Hkey.
      rewrite Hpost, (proj1 (post_init_credential self) Hkey).
      eexists. repeat split; reflexivity.
  - intros s Hs Hne.
    destruct (init_cases environ int_ float_ key kw)
      as [(e & t & Hraise & Hfactory)|(self & Hself & Hpost)].
    + right. exists e, t. split; assumption.
    + left. rewrite Hpost.
      destruct (proj2 (post_init_credential self)) as (cfg & Hcfg & Hkey).
      { rewrite Hself, Hs. destruct s; [contradiction|reflexivity]. }
      exists cfg. split; [exact Hcfg|]. rewrite Hkey, Hself. exact Hs.
Qed.

(** [int] and [float] of the examples raise nothing but [ValueError]. *)
Lemma C9_credential_validation_witness :
  (∃ e, Config.__init__ Demo.bad_timeout Demo.parse_int Demo.parse_float (Some "")
          Config.no_kwargs = Raise e
        ∧ exc_type e = ValueError
        ∧ isinstance e KachyError = false)
  ∧ ((∃ cfg, Config.__init__ ∅ Demo.parse_int Demo.parse_float (Some "secret")
               Config.no_kwargs = Ok cfg
             ∧ access_key cfg = Some "secret")
     ∨ (∃ e t, Config.__init__ ∅ Demo.parse_int Demo.parse_float (Some "secret")
                 Config.no_kwargs = Raise e
               ∧ (Demo.parse_int t = Raise e ∨ Demo.parse_float t = Raise e))).
Proof.
  assert (Hint : ∀ t e, Demo.parse_int t = Raise e → exc_type e = ValueError).
  { intros t e. unfold Demo.parse_int.
    repeat match goal with
           | |- context [String.eqb ?a ?b] => destruct (String.eqb a b)
           end; intros H; inversion H; reflexivity. }
  assert (Hfloat : ∀ t e, Demo.parse_float t = Raise e → exc_type e = ValueError).
  { intros t e. unfold Demo.parse_float.
    destruct (String.eqb t "1.0"); intros H; inversion H; reflexivity. }
  split.
  - apply (proj1 (C9_credential_validation Demo.bad_timeout Demo.parse_int
                    Demo.parse_float (Some "") Config.no_kwargs Hint Hfloat)).
    right. reflexivity.
  - apply (proj1 (proj2 (C9_credential_validation ∅ Demo.parse_int
                    Demo.parse_float (Some "secret") Config.no_kwargs Hint Hfloat))
             "secret"); [reflexivity|discriminate].
Defined.

(** * Further properties of the code *)

(** ** The request that the transport sends *)

(** X1.  Whatever the configured headers hold, the request carries the bearer
    token under [Authorization] (an [Authorization] entry of the
    configuration is replaced), every other configured header as it is, the
    configured timeout, and the endpoint appended to the base URL with
    nothing in between. *)
Theorem request_carries_bearer_token (self : KachyClient) (method endpoint : string)
    (data : option pyval) (tr : trace) :
  ∃ r : http_request,
    (Client._make_request self method endpoint data tr).2 = tr ++ [SessionRequest r]
    ∧ req_method r = method
    ∧ req_url r = base_url (config self) +:+ endpoint
    ∧ req_json r = data
    ∧ req_timeout r = timeout (config self)
    ∧ req_headers r !! "Authorization"
      = Some ("Bearer " +:+ Client.format_key (access_key (config self)))
    ∧ ∀ k, k ≠ "Authorization" → req_headers r !! k = headers (config self) !! k.
Proof.
  exists (Client.build_request self method endpoint data).
  split; [apply make_request_logs_one_call|].
  repeat (split; [reflexivity|]).
  split.
  - cbn [Client.build_request req_headers]. apply lookup_insert_eq.
  - intros k Hk. cbn [Client.build_request req_headers].
    apply lookup_insert_ne. congruence.
Qed.

(** X2.  A body that does not parse, on a response below 400: the exception of
    [json()] is inside the [try], so it is reported as a connection error
    when it derives from [RequestException], and passes as it is
    otherwise. *)
Theorem unparsable_body_outcome (self : KachyClient) (method endpoint : string)
    (data : option pyval) (tr : trace) (response : Response) (e : exn) :
  session self tr (Client.build_request self method endpoint data) = Responds response →
  (status_code response < 400)%Z →
  content response ≠ "" →
  json response = Raise e →
  (Client._make_request self method endpoint data tr).1
  = if isinstance e RequestException
    then Raise (mk_exn KachyConnectionError ("Request failed: " +:+ exc_str e))
    else Raise e.
Proof.
  intros Hsession Hstatus Hcontent Hjson.
  unfold Client._make_request. rewrite Hsession. cbn [fst].
  unfold Client.check_response.
  destruct (Z.eqb_spec (status_code response) 401) as [H401|_]; [lia|].
  destruct (Z.leb_spec 400 (status_code response)) as [H400|_]; [lia|].
  destruct (content response) as [|a body]; [contradiction|].
  rewrite Hjson. reflexivity.
Qed.

Lemma unparsable_body_outcome_witness :
  (Client._make_request Demo.html_body "GET" "/valkey/get/k" None []).1
  = Raise (mk_exn KachyConnectionError "Request failed: Expecting value")
  ∧ (Client._make_request Demo.html_body_old "GET" "/valkey/get/k" None []).1
    = Demo.no_json.
Proof.
  split.
  - rewrite (unparsable_body_outcome Demo.html_body "GET" "/valkey/get/k" None []
               (mk_response 200 "<html></html>" "<html></html>"
                  (Raise (mk_exn RequestException "Expecting value")))
               (mk_exn RequestException "Expecting value"));
      [reflexivity|reflexivity|reflexivity|discriminate|reflexivity].
  - rewrite (unparsable_body_outcome Demo.html_body_old "GET" "/valkey/get/k" None []
               (mk_response 200 "<html></html>" "<html></html>" Demo.no_json)
               (mk_exn ValueError "Expecting value: line 1 column 1 (char 0)"));
      [reflexivity|reflexivity|reflexivity|discriminate|reflexivity].
Defined.

(** X3.  What a handler for the library's base class sees.  A response with a
    status of 400 or more always raises one of the three classes under
    [KachyError], whatever its body; so does a failure of the request that
    derives from [RequestException].  Any other exception of the session is
    not wrapped: it leaves [_make_request] as it came. *)
Theorem transport_failures_and_KachyError (self : KachyClient)
    (method endpoint : string) (data : option pyval) (tr : trace) :
  let request := Client.build_request self method endpoint data in
  let outcome := (Client._make_request self method endpoint data tr).1 in
  (∀ response,
     session self tr request = Responds response →
     (400 ≤ status_code response)%Z →
     ∃ e, outcome = Raise e
          ∧ exc_type e ∈ error_kinds
          ∧ isinstance e KachyError = true)
  ∧ (∀ e,
       session self tr request = Fails e →
       isinstance e RequestException = true →
       ∃ e', outcome = Raise e'
             ∧ exc_type e' = KachyConnectionError
             ∧ isinstance e' KachyError = true)
  ∧ (∀ e,
       session self tr request = Fails e →
       isinstance e RequestException = false →
       outcome = Raise e).
Proof.
  intros request outcome. subst request outcome.
  unfold Client._make_request. cbn [fst].
  split; [|split].
  - intros response -> H400. unfold Client.check_response.
    destruct (Z.eqb_spec (status_code response) 401) as [H401|Hnot].
    + eexists. split; [reflexivity|]. split; [|reflexivity].
      cbn. unfold error_kinds. set_solver.
    + destruct (Z.leb_spec 400 (status_code response)) as [_|Hlt]; [|lia].
      eexists. split; [reflexivity|]. split; [|reflexivity].
      cbn. unfold error_kinds. set_solver.
  - intros e -> He. rewrite He. eexists. repeat split; reflexivity.
  - intros e -> He. rewrite He. reflexivity.
Qed.

Lemma transport_failures_and_KachyError_witness :
  (∃ e, (Client._make_request Demo.not_found "GET" "/valkey/get/k" None []).1 = Raise e
        ∧ exc_type e ∈ error_kinds
        ∧ isinstance e KachyError = true)
  ∧ (Client._make_request
       (Client.connected Demo.cfg (Demo.failing (mk_exn TypeError "not serializable")))
       "POST" "/valkey/set" None []).1
    = Raise (mk_exn TypeError "not serializable").
Proof.
  split.
  - apply (proj1 (transport_failures_and_KachyError Demo.not_found
                    "GET" "/valkey/get/k" None [])
             (mk_response 404 "no such route" "no such route" Demo.no_json));
      [reflexivity|discriminate].
  - apply (proj2 (proj2 (transport_failures_and_KachyError
                    (Client.connected Demo.cfg
                       (Demo.failing (mk_exn TypeError "not serializable")))
                    "POST" "/valkey/set" None []))
             (mk_exn TypeError "not serializable"));
      reflexivity.
Defined.

(** ** The single-call operations *)

(** Every operation has the shape "one request, then [.get] on the answer". *)
Lemma extraction_log (self : KachyClient) (method endpoint : string)
    (data : option pyval) (key : string) (dflt : pyval) (tr : trace) :
  ((let! result := Client._make_request self method endpoint data in
    lift (py_get result key dflt)) tr).2
  = tr ++ [SessionRequest (Client.build_request self method endpoint data)].
Proof.
  unfold bind, lift.
  pose proof (make_request_logs_one_call self method endpoint data tr) as Hlog.
  destruct (Client._make_request self method endpoint data tr) as [[v|e] tr'];
    cbn [snd] in *; exact Hlog.
Qed.

Lemma extraction_of_object (self : KachyClient) (method endpoint : string)
    (data : option pyval) (key : string) (dflt : pyval) (tr : trace)
    (d : gmap string pyval) :
  (Client._make_request self method endpoint data tr).1 = Ok (PDict d) →
  ((let! result := Client._make_request self method endpoint data in
    lift (py_get result key dflt)) tr).1
  = Ok (default dflt (d !! key)).
Proof.
  intros H. unfold bind, lift.
  destruct (Client._make_request self method endpoint data tr) as [r tr'].
  cbn [fst] in H. subst r. reflexivity.
Qed.

Lemma extraction_of_failure (self : KachyClient) (method endpoint : string)
    (data : option pyval) (key : string) (dflt : pyval) (tr : trace) (e : exn) :
  (Client._make_request self method endpoint data tr).1 = Raise e →
  ((let! result := Client._make_request self method endpoint data in
    lift (py_get result key dflt)) tr).1
  = Raise e.
Proof.
  intros H. unfold bind, lift.
  destruct (Client._make_request self method endpoint data tr) as [r tr'].
  cbn [fst] in H. subst r. reflexivity.
Qed.

(** X4.  The wire format of the seven operations.  Each makes exactly one call on
    the session, also when it ends in an exception: the method, the path
    (the key is appended to the path as it is, without escaping) and the
    JSON body are as listed; [set] sends [ex] only when an expiration is
    given, and the reads send no body. *)
Theorem operations_issue_one_request (self : KachyClient) (tr : trace) :
  let sent method endpoint data :=
    tr ++ [SessionRequest (Client.build_request self method endpoint data)] in
  (∀ key value,
     (Client.set self key value None tr).2
     = sent "POST" "/valkey/set"
         (Some (PDict (<["value" := PStr value]> (<["key" := PStr key]> ∅)))))
  ∧ (∀ key value n,
       (Client.set self key value (Some n) tr).2
       = sent "POST" "/valkey/set"
           (Some (PDict (<["ex" := PInt n]>
                           (<["value" := PStr value]> (<["key" := PStr key]> ∅))))))
  ∧ (∀ key, (Client.get self key tr).2 = sent "GET" ("/valkey/get/" +:+ key) None)
  ∧ (∀ key, (Client.delete self key tr).2 = sent "DELETE" ("/valkey/del/" +:+ key) None)
  ∧ (∀ key, (Client.exists_ self key tr).2 = sent "GET" ("/valkey/exists/" +:+ key) None)
  ∧ (∀ key seconds,
       (Client.expire self key seconds tr).2
       = sent "POST" "/valkey/expire"
           (Some (PDict (<["seconds" := PInt seconds]> (<["key" := PStr key]> ∅)))))
  ∧ (∀ key, (Client.ttl self key tr).2 = sent "GET" ("/valkey/ttl/" +:+ key) None)
  ∧ (∀ cmd args,
       (Client.redis self cmd args tr).2
       = sent "POST" "/valkey/exec"
           (Some (PDict (<["args" := PList args]>
                           (<["command" := PStr (upper cmd)]> ∅))))).
Proof.
  intros sent. subst sent. cbv beta.
  repeat split; intros; apply extraction_log.
Qed.

(** X5.  The extraction table.  When the session answers with a JSON object,
    each operation returns the value found under its field as it is (no
    conversion to [bool] or [int]), and its default when the field is
    absent: [False] for set, delete, exists and expire, [None] for get and
    redis, [-2] for ttl. *)
Theorem operations_extract_field (self : KachyClient) (tr : trace)
    (response : Response) (d : gmap string pyval) :
  (∀ request, session self tr request = Responds response) →
  (status_code response < 400)%Z →
  content response ≠ "" →
  json response = Ok (PDict d) →
  (∀ key value ex,
     (Client.set self key value ex tr).1 = Ok (default (PBool false) (d !! "success")))
  ∧ (∀ key, (Client.get self key tr).1 = Ok (default PNone (d !! "value")))
  ∧ (∀ key, (Client.delete self key tr).1 = Ok (default (PBool false) (d !! "deleted")))
  ∧ (∀ key, (Client.exists_ self key tr).1 = Ok (default (PBool false) (d !! "exists")))
  ∧ (∀ key seconds,
       (Client.expire self key seconds tr).1
       = Ok (default (PBool false) (d !! "success")))
  ∧ (∀ key, (Client.ttl self key tr).1 = Ok (default (PInt (-2)) (d !! "ttl")))
  ∧ (∀ cmd args, (Client.redis self cmd args tr).1 = Ok (default PNone (d !! "result"))).
Proof.
  intros Hsession Hstatus Hcontent Hjson.
  assert (Hreq : ∀ method endpoint data,
             (Client._make_request self method endpoint data tr).1 = Ok (PDict d)).
  { intros method endpoint data.
    apply (make_request_returns_json self method endpoint data tr response (PDict d));
      auto. }
  repeat split; intros; apply extraction_of_object, Hreq.
Qed.

Lemma operations_extract_field_witness :
  (Client.set Demo.full_object "k" "v" (Some 60%Z) []).1 = Ok (PBool true)
  ∧ (Client.get Demo.full_object "k" []).1 = Ok (PStr "v")
  ∧ (Client.ttl Demo.full_object "k" []).1 = Ok (PInt 42)
  ∧ (Client.ttl Demo.empty_object "k" []).1 = Ok (PInt (-2)).
Proof.
  destruct (operations_extract_field Demo.full_object []
              (mk_response 200 "{...}" "{...}" (Ok (PDict Demo.all_fields)))
              Demo.all_fields)
    as (Hset & Hget & _ & _ & _ & Httl & _);
    [reflexivity|reflexivity|discriminate|reflexivity|].
  destruct (operations_extract_field Demo.empty_object []
              (mk_response 200 "{}" "{}" (Ok (PDict ∅))) ∅)
    as (_ & _ & _ & _ & _ & Httl' & _);
    [reflexivity|reflexivity|discriminate|reflexivity|].
  split; [rewrite Hset; reflexivity|].
  split; [rewrite Hget; reflexivity|].
  split; [rewrite Httl; reflexivity|].
  rewrite Httl'. reflexivity.
Defined.

(** X6.  The operations handle nothing themselves: an exception of the transport
    (authentication, response or connection error, or anything else) leaves
    each operation as the same exception. *)
Theorem operations_pass_errors_on (self : KachyClient) (tr : trace) (e : exn) :
  (∀ method endpoint data,
     (Client._make_request self method endpoint data tr).1 = Raise e) →
  (∀ key value ex, (Client.set self key value ex tr).1 = Raise e)
  ∧ (∀ key, (Client.get self key tr).1 = Raise e)
  ∧ (∀ key, (Client.delete self key tr).1 = Raise e)
  ∧ (∀ key, (Client.exists_ self key tr).1 = Raise e)
  ∧ (∀ key seconds, (Client.expire self key seconds tr).1 = Raise e)
  ∧ (∀ key, (Client.ttl self key tr).1 = Raise e)
  ∧ (∀ cmd args, (Client.redis self cmd args tr).1 = Raise e).
Proof.
  intros Hreq.
  repeat split; intros; apply extraction_of_failure, Hreq.
Qed.

Lemma operations_pass_errors_on_witness :
  (Client.get Demo.unauthorized "k" []).1
  = Raise (mk_exn KachyAuthenticationError "Authentication failed")
  ∧ (Client.set Demo.unauthorized "k" "v" None []).1
    = Raise (mk_exn KachyAuthenticationError "Authentication failed").
Proof.
  destruct (operations_pass_errors_on Demo.unauthorized []
              (mk_exn KachyAuthenticationError "Authentication failed"))
    as (Hset & Hget & _); [reflexivity|].
  split; [apply Hget|apply Hset].
Defined.

Lemma upper_ascii_idempotent (c : Ascii.ascii) :
  upper_ascii (upper_ascii c) = upper_ascii c.
Proof. destruct c as [[] [] [] [] [] [] [] []]; reflexivity. Qed.

Lemma upper_idempotent (s : string) : upper (upper s) = upper s.
Proof.
  induction s as [|c s IH]; [reflexivity|].
  cbn [upper]. rewrite upper_ascii_idempotent, IH. reflexivity.
Qed.

(** X7.  The name of a raw command is sent in upper case, so its case does not
    matter: a name and its upper-case spelling behave alike, on the client
    and in a pipeline. *)
Theorem redis_command_case_insensitive (self : KachyClient) (p : KachyPipeline)
    (cmd : string) (args : list pyval) (tr : trace) :
  Client.redis self (upper cmd) args tr = Client.redis self cmd args tr
  ∧ Pipeline.redis p (upper cmd) args = Pipeline.redis p cmd args.
Proof.
  unfold Client.redis, Pipeline.redis. rewrite upper_idempotent.
  split; reflexivity.
Qed.

(** ** The convenience functions on a registered client *)

(** X8.  With a client registered, [set], [get], [delete], [exists], [expire]
    and [ttl] are the client's methods of the same name, and [close] closes
    the client's session. *)
Theorem convenience_functions_delegate (c : KachyClient) (tr : trace) :
  (∀ key value ex, Kachy.set (Some c) key value ex tr = Client.set c key value ex tr)
  ∧ (∀ key, Kachy.get (Some c) key tr = Client.get c key tr)
  ∧ (∀ key, Kachy.delete (Some c) key tr = Client.delete c key tr)
  ∧ (∀ key, Kachy.exists_ (Some c) key tr = Client.exists_ c key tr)
  ∧ (∀ key seconds, Kachy.expire (Some c) key seconds tr = Client.expire c key seconds tr)
  ∧ (∀ key, Kachy.ttl (Some c) key tr = Client.ttl c key tr)
  ∧ Kachy.close (Some c) tr = (Ok tt, tr ++ [SessionClose]).
Proof.
  repeat split; intros; unfold Kachy.set, Kachy.get, Kachy.delete, Kachy.exists_,
    Kachy.expire, Kachy.ttl, bind, lift; cbn;
    match goal with |- context [?m tr] => destruct (m tr) as [[v|e] tr'] end;
    reflexivity.
Qed.

(** The name [pipeline] of the package after the submodule was imported:
    calling it raises [TypeError], with or without a registered client, and
    touches no session. *)
Lemma pipeline_name_rebound (loaded : list Kachy.module_name)
    (_client : option KachyClient) (tr : trace) :
  Kachy.kachy_pipeline ∈ loaded →
  Kachy.call_pipeline loaded _client tr
  = (Raise (mk_exn TypeError "'module' object is not callable"), tr).
Proof.
  intros Hloaded. unfold Kachy.call_pipeline.
  rewrite (bool_decide_eq_true_2 _ Hloaded). reflexivity.
Qed.

(** ** More on the pipeline *)

(** X9.  The six named builders are raw commands under a fixed name: each gives
    the pipeline that [redis] gives for that name and the same arguments
    ([delete] under the name DEL). *)
Theorem builders_are_redis_commands (p : KachyPipeline) :
  (∀ key value ex,
     Pipeline.set p key value ex
     = Pipeline.redis p "set" [PStr key; PStr value; of_optional_int ex])
  ∧ (∀ key, Pipeline.get p key = Pipeline.redis p "get" [PStr key])
  ∧ (∀ key, Pipeline.delete p key = Pipeline.redis p "del" [PStr key])
  ∧ (∀ key, Pipeline.exists_ p key = Pipeline.redis p "exists" [PStr key])
  ∧ (∀ key seconds,
       Pipeline.expire p key seconds
       = Pipeline.redis p "expire" [PStr key; PInt seconds])
  ∧ (∀ key, Pipeline.ttl p key = Pipeline.redis p "ttl" [PStr key]).
Proof. repeat split. Qed.

(** X11.  Leaving the [with] block of a pipeline.  An empty pipeline is
    left alone (no request, no exception); a non-empty one is flushed with
    exactly one request.  Afterwards the pipeline is empty, unless the flush
    raised outside [Exception]; the client is the same in every case. *)
Theorem exit_flushes_pipeline (p : KachyPipeline) (tr : trace) :
  ((∀ e, (Pipeline.__exit__ p tr).1.1 = Raise e → isinstance e Exception = true) →
   commands (Pipeline.__exit__ p tr).1.2 = [])
  ∧ client (Pipeline.__exit__ p tr).1.2 = client p
  ∧ (commands p = [] → Pipeline.__exit__ p tr = (Ok tt, p, tr))
  ∧ (commands p ≠ [] →
     (Pipeline.__exit__ p tr).2
     = tr ++ [SessionRequest
                (Client.build_request (client p) "POST" "/valkey/pipeline"
                   (Some (Pipeline.batch (commands p))))]).
Proof.
  unfold Pipeline.__exit__.
  destruct (commands p) as [|cmd rest] eqn:Hcmds.
  - cbn [fst snd]. rewrite Hcmds. repeat split; try reflexivity. contradiction.
  - assert (Hne : commands p ≠ []) by (rewrite Hcmds; discriminate).
    rewrite (execute_nonempty p tr Hne). cbn [fst snd].
    split; [|split; [|split]].
    + destruct (Pipeline.flush p tr).1 as [results|e]; cbn [rbind].
      * intros _. reflexivity.
      * intros Hcaught. rewrite (Hcaught e eq_refl). reflexivity.
    + destruct (Pipeline.flush p tr).1 as [results|e]; [reflexivity|].
      destruct (isinstance e Exception); reflexivity.
    + discriminate.
    + intros _. rewrite flush_logs_one_call, Hcmds. reflexivity.
Qed.

Lemma exit_flushes_pipeline_witness :
  Pipeline.__exit__ (Pipeline.__init__ Demo.two_results) []
  = (Ok tt, Pipeline.__init__ Demo.two_results, [])
  ∧ length (Pipeline.__exit__ (Demo.set_then_get Demo.two_results) []).2 = 1
  ∧ commands (Pipeline.__exit__ (Demo.set_then_get Demo.two_results) []).1.2 = [].
Proof.
  split; [|split].
  - apply (proj1 (proj2 (proj2
             (exit_flushes_pipeline (Pipeline.__init__ Demo.two_results) [])))).
    reflexivity.
  - rewrite (proj2 (proj2 (proj2
               (exit_flushes_pipeline (Demo.set_then_get Demo.two_results) []))));
      [reflexivity|discriminate].
  - apply (proj1 (exit_flushes_pipeline (Demo.set_then_get Demo.two_results) [])).
    intros e He. vm_compute in He. discriminate.
Defined.

(** X12.  A block that calls [execute] itself sends its batch once: when
    that [execute] returned, or raised an exception that derives from
    [Exception], the [__exit__] that follows finds the pipeline empty, sends
    nothing and does not raise. *)
Theorem exit_after_execute_sends_nothing (p : KachyPipeline) (tr : trace) :
  (∀ e, (Pipeline.execute p tr).1.1 = Raise e → isinstance e Exception = true) →
  Pipeline.__exit__ (Pipeline.execute p tr).1.2 (Pipeline.execute p tr).2
  = (Ok tt, (Pipeline.execute p tr).1.2, (Pipeline.execute p tr).2).
Proof.
  destruct (commands p) as [|cmd rest] eqn:Hcmds.
  - rewrite (execute_guard p tr Hcmds). intros _. unfold Pipeline.__exit__.
    cbn [fst snd]. rewrite Hcmds. reflexivity.
  - assert (Hne : commands p ≠ []) by (rewrite Hcmds; discriminate).
    rewrite (execute_nonempty p tr Hne). cbn [fst snd].
    destruct (Pipeline.flush p tr).1 as [results|e].
    + intros _. reflexivity.
    + intros Hcaught. rewrite (Hcaught e eq_refl). reflexivity.
Qed.

Lemma exit_after_execute_sends_nothing_witness :
  length
    (Pipeline.__exit__ (Pipeline.execute (Demo.set_then_get Demo.timed_out) []).1.2
       (Pipeline.execute (Demo.set_then_get Demo.timed_out) []).2).2 = 1.
Proof.
  rewrite (exit_after_execute_sends_nothing (Demo.set_then_get Demo.timed_out) []).
  - reflexivity.
  - intros e He. vm_compute in He. injection He as <-. reflexivity.
Defined.

(** X13.  A failed flush is reported as it is: the exception of the
    transport leaves [execute], and [__exit__], unchanged; the commands are
    dropped when it derives from [Exception] and kept otherwise. *)
Theorem pipeline_failure_propagates (p : KachyPipeline) (tr : trace) (e : exn) :
  commands p ≠ [] →
  (Client._make_request (client p) "POST" "/valkey/pipeline"
     (Some (Pipeline.batch (commands p))) tr).1 = Raise e →
  (Pipeline.execute p tr).1
  = (Raise e, if isinstance e Exception then Pipeline.clear p else p)
  ∧ (Pipeline.__exit__ p tr).1
    = (Raise e, if isinstance e Exception then Pipeline.clear p else p).
Proof.
  intros Hne Hreq.
  assert (Hflush : (Pipeline.flush p tr).1 = Raise e).
  { unfold Pipeline.flush. apply extraction_of_failure, Hreq. }
  assert (Hexec : (Pipeline.execute p tr).1
                  = (Raise e, if isinstance e Exception then Pipeline.clear p else p)).
  { rewrite (execute_nonempty p tr Hne). cbn [fst]. rewrite Hflush. reflexivity. }
  split; [exact Hexec|].
  unfold Pipeline.__exit__.
  destruct (commands p) as [|cmd rest]; [contradiction|].
  destruct (Pipeline.execute p tr) as [[r p'] tr'].
  cbn [fst] in *. inversion Hexec; subst. reflexivity.
Qed.

Lemma pipeline_failure_propagates_witness :
  (Pipeline.execute (Demo.set_then_get Demo.unauthorized) []).1
  = (Raise (mk_exn KachyAuthenticationError "Authentication failed"),
     Pipeline.__init__ Demo.unauthorized)
  ∧ (Pipeline.execute (Demo.set_then_get Demo.interrupted) []).1
    = (Raise (mk_exn KeyboardInterrupt ""), Demo.set_then_get Demo.interrupted).
Proof.
  split.
  - apply (proj1 (pipeline_failure_propagates (Demo.set_then_get Demo.unauthorized) []
                    (mk_exn KachyAuthenticationError "Authentication failed")
                    ltac:(discriminate) eq_refl)).
  - apply (proj1 (pipeline_failure_propagates (Demo.set_then_get Demo.interrupted) []
                    (mk_exn KeyboardInterrupt "")
                    ltac:(discriminate) eq_refl)).
Defined.

(** X14.  The batch path reads the answer with [.get] as the single calls do: on a
    response with an empty body [execute] raises [AttributeError], after
    the request was sent, and the commands are dropped all the same. *)
Theorem execute_on_empty_body (p : KachyPipeline) (tr : trace) (response : Response) :
  commands p ≠ [] →
  session (client p) tr
    (Client.build_request (client p) "POST" "/valkey/pipeline"
       (Some (Pipeline.batch (commands p)))) = Responds response →
  (status_code response < 400)%Z →
  content response = "" →
  Pipeline.execute p tr
  = (Raise (mk_exn AttributeError "'NoneType' object has no attribute 'get'"),
     Pipeline.clear p,
     tr ++ [SessionRequest
              (Client.build_request (client p) "POST" "/valkey/pipeline"
                 (Some (Pipeline.batch (commands p))))]).
Proof.
  intros Hne Hsession Hstatus Hcontent.
  assert (Hflush : (Pipeline.flush p tr).1
                   = Raise (mk_exn AttributeError
                              "'NoneType' object has no attribute 'get'")).
  { unfold Pipeline.flush. apply none_has_no_get.
    apply (make_request_returns_None _ _ _ _ _ response); assumption. }
  rewrite (execute_nonempty p tr Hne), flush_logs_one_call, Hflush.
  reflexivity.
Qed.

Lemma execute_on_empty_body_witness :
  (Pipeline.execute (Demo.set_then_get Demo.no_content) []).1
  = (Raise (mk_exn AttributeError "'NoneType' object has no attribute 'get'"),
     Pipeline.__init__ Demo.no_content).
Proof.
  rewrite (execute_on_empty_body (Demo.set_then_get Demo.no_content) []
             (mk_response 204 "" "" Demo.no_json));
    [reflexivity|discriminate|reflexivity|reflexivity|reflexivity].
Defined.

(** ** Constructing a configuration *)

(** What a successful [__post_init__] leaves: the credential is true, the
    headers are the given ones or the defaults, and no other field moved. *)
Lemma post_init_inv (self cfg : KachyConfig) :
  Config.__post_init__ self = Ok cfg →
  Config.truthy (access_key self) = true
  ∧ access_key cfg = access_key self
  ∧ base_url cfg = base_url self
  ∧ timeout cfg = timeout self
  ∧ max_retries cfg = max_retries self
  ∧ retry_delay cfg = retry_delay self
  ∧ pool_size cfg = pool_size self
  ∧ user_agent cfg = user_agent self
  ∧ headers cfg
    = (if bool_decide (headers self = ∅)
       then Config.default_headers (user_agent self)
       else headers self).
Proof.
  unfold Config.__post_init__.
  destruct (Config.truthy (access_key self)); cbn [negb]; [|discriminate].
  destruct (bool_decide (headers self = ∅)); intros H; inversion H; subst;
    repeat split; reflexivity.
Qed.

(** A successful [__init__] went through every field and then through
    [__post_init__]. *)
Lemma init_inv (environ : gmap string string) (int_ : string → result Z)
    (float_ : string → result Q) (key : option string) (kw : Config.kwargs)
    (cfg : KachyConfig) :
  Config.__init__ environ int_ float_ key kw = Ok cfg →
  ∃ b t r d p ua h,
    Config.field (Config.kw_base_url kw)
      (Ok (Config.environ_get environ "KACHY_BASE_URL" "https://api.klache.net")) = Ok b
    ∧ Config.field (Config.kw_timeout kw)
        (int_ (Config.environ_get environ "KACHY_TIMEOUT" "30")) = Ok t
    ∧ Config.field (Config.kw_max_retries kw)
        (int_ (Config.environ_get environ "KACHY_MAX_RETRIES" "3")) = Ok r
    ∧ Config.field (Config.kw_retry_delay kw)
        (float_ (Config.environ_get environ "KACHY_RETRY_DELAY" "1.0")) = Ok d
    ∧ Config.field (Config.kw_pool_size kw)
        (int_ (Config.environ_get environ "KACHY_POOL_SIZE" "10")) = Ok p
    ∧ Config.field (Config.kw_user_agent kw) (Ok "kachy-valkey-python/0.1.0") = Ok ua
    ∧ Config.field (Config.kw_headers kw) (Ok ∅) = Ok h
    ∧ Config.__post_init__ (mk_config key b t r d p ua h) = Ok cfg.
Proof.
  unfold Config.__init__.
  repeat match goal with
         | |- context [rbind (Config.field ?given ?factory) _] =>
             destruct (Config.field given factory) eqn:?; cbn [rbind];
             [|discriminate]
         end.
  intros H. eexists _, _, _, _, _, _, _. repeat split; eassumption || reflexivity.
Qed.

Lemma Ok_inj {A : Type} (a b : A) : Ok a = Ok b → a = b.
Proof. intros H. injection H as H. exact H. Defined.

(** X15.  Where each field of a constructed configuration comes from: the keyword
    argument when one is given; otherwise the environment variable, for the
    numbers through [int] and [float]; otherwise the hard-coded default.
    The user agent has no environment variable. *)
Theorem config_field_precedence (environ : gmap string string)
    (int_ : string → result Z) (float_ : string → result Q)
    (key : option string) (kw : Config.kwargs) (cfg : KachyConfig) :
  Config.__init__ environ int_ float_ key kw = Ok cfg →
  access_key cfg = key
  ∧ base_url cfg
    = default (default "https://api.klache.net" (environ !! "KACHY_BASE_URL"))
        (Config.kw_base_url kw)
  ∧ Ok (timeout cfg)
    = match Config.kw_timeout kw with
      | Some t => Ok t
      | None => int_ (default "30" (environ !! "KACHY_TIMEOUT"))
      end
  ∧ Ok (max_retries cfg)
    = match Config.kw_max_retries kw with
      | Some r => Ok r
      | None => int_ (default "3" (environ !! "KACHY_MAX_RETRIES"))
      end
  ∧ Ok (retry_delay cfg)
    = match Config.kw_retry_delay kw with
      | Some d => Ok d
      | None => float_ (default "1.0" (environ !! "KACHY_RETRY_DELAY"))
      end
  ∧ Ok (pool_size cfg)
    = match Config.kw_pool_size kw with
      | Some p => Ok p
      | None => int_ (default "10" (environ !! "KACHY_POOL_SIZE"))
      end
  ∧ user_agent cfg = default "kachy-valkey-python/0.1.0" (Config.kw_user_agent kw).
Proof.
  intros Hinit.
  destruct (init_inv _ _ _ _ _ _ Hinit)
    as (b & t & r & d & p & ua & h & Hb & Ht & Hr & Hd & Hp & Hua & Hh & Hpost).
  destruct (post_init_inv _ _ Hpost)
    as (_ & Hkey & Hbase & Htimeout & Hretries & Hdelay & Hpool & Hagent & _).
  cbn [access_key base_url timeout max_retries retry_delay pool_size user_agent]
    in *.
  unfold Config.field, Config.environ_get in *.
  rewrite Hkey, Hbase, Htimeout, Hretries, Hdelay, Hpool, Hagent.
  repeat split.
  - destruct (Config.kw_base_url kw); cbn; congruence.
  - destruct (Config.kw_timeout kw); congruence.
  - destruct (Config.kw_max_retries kw); congruence.
  - destruct (Config.kw_retry_delay kw); congruence.
  - destruct (Config.kw_pool_size kw); congruence.
  - destruct (Config.kw_user_agent kw); cbn; congruence.
Qed.

Lemma config_field_precedence_witness :
  ∃ cfg,
    Config.__init__ Demo.staging Demo.parse_int Demo.parse_float (Some "secret")
      (Config.mk_kwargs None (Some 5%Z) None None None None None) = Ok cfg
    ∧ base_url cfg = "https://staging.klache.net"
    ∧ timeout cfg = 5%Z
    ∧ max_retries cfg = 3%Z
    ∧ pool_size cfg = 10%Z.
Proof.
  eexists. split; [reflexivity|].
  destruct (config_field_precedence Demo.staging Demo.parse_int Demo.parse_float
              (Some "secret")
              (Config.mk_kwargs None (Some 5%Z) None None None None None) _ eq_refl)
    as (_ & Hbase & Htimeout & Hretries & _ & Hpool & _).
  split; [exact Hbase|].
  split; [apply Ok_inj, Htimeout|].
  split; [apply Ok_inj, Hretries|].
  apply Ok_inj, Hpool.
Defined.

(** X16.  The default factories run before the credential is looked at: a
    KACHY_TIMEOUT that [int] rejects makes the construction fail with the
    exception of [int], whatever the credential is, unless a timeout is
    given as an argument. *)
Theorem malformed_timeout_fails_construction (environ : gmap string string)
    (int_ : string → result Z) (float_ : string → result Q)
    (key : option string) (kw : Config.kwargs) (e : exn) :
  Config.kw_timeout kw = None →
  int_ (default "30" (environ !! "KACHY_TIMEOUT")) = Raise e →
  Config.__init__ environ int_ float_ key kw = Raise e.
Proof.
  intros Hkw Hint. unfold Config.__init__. rewrite Hkw.
  destruct (Config.kw_base_url kw); cbn [Config.field rbind];
    unfold Config.environ_get; rewrite Hint; reflexivity.
Qed.

Lemma malformed_timeout_fails_construction_witness :
  Config.__init__ Demo.bad_timeout Demo.parse_int Demo.parse_float (Some "secret")
    Config.no_kwargs
  = Raise (mk_exn ValueError "invalid literal for int() with base 10: 'soon'")
  ∧ Config.__init__ Demo.bad_timeout Demo.parse_int Demo.parse_float (Some "")
      Config.no_kwargs
    = Raise (mk_exn ValueError "invalid literal for int() with base 10: 'soon'").
Proof.
  split;
    apply (malformed_timeout_fails_construction Demo.bad_timeout Demo.parse_int
             Demo.parse_float _ Config.no_kwargs);
    reflexivity.
Defined.

(** X17.  With the four numbers given as arguments the environment cannot make
    the construction fail: it succeeds exactly when the credential is
    non-empty. *)
Theorem explicit_numbers_bypass_environment (environ : gmap string string)
    (int_ : string → result Z) (float_ : string → result Q)
    (key : option string) (kw : Config.kwargs) (t r p : Z) (d : Q) :
  Config.kw_timeout kw = Some t →
  Config.kw_max_retries kw = Some r →
  Config.kw_retry_delay kw = Some d →
  Config.kw_pool_size kw = Some p →
  (Config.truthy key = true →
   ∃ cfg, Config.__init__ environ int_ float_ key kw = Ok cfg)
  ∧ (Config.truthy key = false →
     Config.__init__ environ int_ float_ key kw
     = Raise (mk_exn ValueError "KACHY_ACCESS_KEY is required")).
Proof.
  intros Ht Hr Hd Hp. unfold Config.__init__. rewrite Ht, Hr, Hd, Hp.
  destruct (Config.kw_base_url kw), (Config.kw_user_agent kw),
    (Config.kw_headers kw); cbn [Config.field rbind];
    unfold Config.__post_init__; cbn [access_key headers];
    (split; intros Hkey; rewrite Hkey; cbn [negb]; [|reflexivity]);
    match goal with
    | |- context [bool_decide ?P] => destruct (bool_decide P)
    end; eexists; reflexivity.
Qed.

Lemma explicit_numbers_bypass_environment_witness :
  ∃ cfg,
    Config.__init__ Demo.bad_timeout Demo.parse_int Demo.parse_float (Some "secret")
      (Config.mk_kwargs None (Some 5%Z) (Some 0%Z) (Some 1%Q) (Some 2%Z) None None)
    = Ok cfg.
Proof.
  apply (proj1 (explicit_numbers_bypass_environment Demo.bad_timeout Demo.parse_int
                  Demo.parse_float (Some "secret")
                  (Config.mk_kwargs None (Some 5%Z) (Some 0%Z) (Some 1%Q) (Some 2%Z)
                     None None)
                  5%Z 0%Z 2%Z 1%Q eq_refl eq_refl eq_refl eq_refl)).
  reflexivity.
Defined.

(** ** Registering the global client *)

(** X18.  [init] either registers the client it returns, which then holds the
    given credential, a non-empty one; or it raises and leaves the global as
    it was.  So an empty credential never registers a client, and a failed
    [init] does not unregister an earlier one. *)
Theorem init_registers_or_keeps (lib : Library) (environ : gmap string string)
    (int_ : string → result Z) (float_ : string → result Q)
    (loaded : list Kachy.module_name)
    (before : option KachyClient) (key : option string) (kw : Config.kwargs) :
  (∃ c loaded',
     Kachy.init lib environ int_ float_ loaded before key kw = (Ok c, Some c, loaded')
     ∧ session c = Client.mounted (config c) lib
     ∧ access_key (config c) = key
     ∧ Config.truthy key = true)
  ∨ (∃ e loaded',
       Kachy.init lib environ int_ float_ loaded before key kw
       = (Raise e, before, loaded')).
Proof.
  unfold Kachy.init.
  destruct (Kachy.import_from 3 [] loaded Kachy.kachy_config "KachyConfig")
    as [[[]|e1] loaded1]; [|right; eexists _, _; reflexivity].
  destruct (Kachy.import_from 3 [] loaded1 Kachy.kachy_client "KachyClient")
    as [[[]|e2] loaded2]; [|right; eexists _, _; reflexivity].
  destruct (Config.__init__ environ int_ float_ key kw) as [cfg|e3] eqn:Hinit;
    [|right; eexists _, _; reflexivity].
  destruct (Client.__init__ lib cfg) as [c|e4] eqn:Hclient;
    [|right; eexists _, _; reflexivity].
  left. exists c, loaded2. split; [reflexivity|].
  destruct (client_init_inv lib cfg c Hclient) as [_ ->].
  split; [reflexivity|]. cbn [config Client.connected].
  destruct (init_inv _ _ _ _ _ _ Hinit)
    as (b & t & r & d & p & ua & h & _ & _ & _ & _ & _ & _ & _ & Hpost).
  destruct (post_init_inv _ _ Hpost) as (Htruthy & Hkey & _).
  cbn [access_key] in Htruthy, Hkey. split; assumption.
Qed.

(** X20.  The modules [kachy.client] and [kachy.pipeline] import each other
    at their top (client.py line 13, pipeline.py line 6).  In an interpreter
    that has imported neither, as it is after [import kachy], [init] raises
    [ImportError] at its own import of the client, whatever its arguments:
    no client is registered, and neither module is imported afterwards, so
    the next call fails alike. *)
Theorem init_fails_on_import_cycle (lib : Library) (environ : gmap string string)
    (int_ : string → result Z) (float_ : string → result Q)
    (loaded : list Kachy.module_name)
    (before : option KachyClient) (key : option string) (kw : Config.kwargs) :
  Kachy.kachy_client ∉ loaded →
  Kachy.kachy_pipeline ∉ loaded →
  ∃ loaded',
    (Kachy.init lib environ int_ float_ loaded before key kw
     = (Raise (Kachy.circular_import Kachy.kachy_client "KachyClient"),
        before, loaded'))
    ∧ (Kachy.kachy_client ∉ loaded')
    ∧ (Kachy.kachy_pipeline ∉ loaded').
Proof.
  intros Hclient Hpipeline. unfold Kachy.init.
  destruct (import_config_succeeds loaded) as (loaded1 & -> & Hsame).
  destruct (import_client_fails loaded1) as (loaded2 & -> & Hclient2 & Hpipeline2).
  - rewrite Hsame by discriminate. exact Hclient.
  - rewrite Hsame by discriminate. exact Hpipeline.
  - exists loaded2. repeat split; assumption.
Qed.

Lemma init_fails_on_import_cycle_witness :
  ∃ loaded',
    Kachy.init (Demo.answers 200 "{}" (Ok (PDict ∅))) ∅ Demo.parse_int
      Demo.parse_float Demo.fresh None (Some "secret") Config.no_kwargs
    = (Raise (mk_exn ImportError
                "cannot import name 'KachyClient' from partially initialized module 'kachy.client' (most likely due to a circular import)"),
       None, loaded')
    ∧ Kachy.kachy_client ∉ loaded'
    ∧ Kachy.kachy_pipeline ∉ loaded'.
Proof.
  apply (init_fails_on_import_cycle (Demo.answers 200 "{}" (Ok (PDict ∅))) ∅
           Demo.parse_int Demo.parse_float Demo.fresh None (Some "secret")
           Config.no_kwargs);
    apply not_elem_of_nil.
Defined.

(** X19.  Every request of a client that holds a successfully constructed
    configuration carries the credential given to the constructor, a
    non-empty one, as bearer token; when no headers were given (or an empty
    mapping), it also carries Accept, Content-Type and the User-Agent of the
    configuration. *)
Theorem configured_client_sends_credential (environ : gmap string string)
    (int_ : string → result Z) (float_ : string → result Q)
    (key : option string) (kw : Config.kwargs) (c : KachyClient) :
  Config.__init__ environ int_ float_ key kw = Ok (config c) →
  ∃ s, key = Some s ∧ s ≠ ""
       ∧ ∀ method endpoint data tr,
           ∃ r, (Client._make_request c method endpoint data tr).2
                = tr ++ [SessionRequest r]
                ∧ req_headers r !! "Authorization" = Some ("Bearer " +:+ s)
                ∧ (Config.kw_headers kw = None ∨ Config.kw_headers kw = Some ∅ →
                   req_headers r !! "Accept" = Some "application/json"
                   ∧ req_headers r !! "Content-Type" = Some "application/json"
                   ∧ req_headers r !! "User-Agent" = Some (user_agent (config c))).
Proof.
  intros Hinit.
  destruct (init_inv _ _ _ _ _ _ Hinit)
    as (b & t & r & d & p & ua & h & _ & _ & _ & _ & _ & _ & Hh & Hpost).
  destruct (post_init_inv _ _ Hpost)
    as (Htruthy & Hkey & _ & _ & _ & _ & _ & Hagent & Hheaders).
  cbn [access_key headers user_agent] in *.
  destruct key as [[|a s]|]; try discriminate.
  exists (String a s). split; [reflexivity|]. split; [discriminate|].
  intros method endpoint data tr.
  exists (Client.build_request c method endpoint data).
  split; [apply make_request_logs_one_call|].
  cbn [Client.build_request req_headers].
  unfold Client._get_auth_token.
  rewrite Hkey. cbn [Client.format_key]. split; [apply lookup_insert_eq|].
  intros Hkw.
  assert (Hempty : h = ∅).
  { destruct Hkw as [Hkw|Hkw]; rewrite Hkw in Hh; cbn in Hh; congruence. }
  subst h. rewrite bool_decide_eq_true_2 in Hheaders by reflexivity.
  rewrite Hheaders, Hagent. unfold Config.default_headers.
  repeat split; rewrite lookup_insert_ne by discriminate; simplify_map_eq;
    reflexivity.
Qed.

Lemma configured_client_sends_credential_witness :
  ∃ r,
    (Client._make_request Demo.empty_object "GET" "/valkey/get/k" None []).2
    = [SessionRequest r]
    ∧ req_headers r !! "Authorization" = Some "Bearer secret"
    ∧ req_headers r !! "Accept" = Some "application/json".
Proof.
  assert (Hinit : Config.__init__ ∅ Demo.parse_int Demo.parse_float (Some "secret")
                    Config.no_kwargs = Ok (config Demo.empty_object))
    by (vm_compute; reflexivity).
  destruct (configured_client_sends_credential ∅ Demo.parse_int Demo.parse_float
              (Some "secret") Config.no_kwargs Demo.empty_object Hinit)
    as (s & Hs & _ & Hrequests).
  injection Hs as <-.
  destruct (Hrequests "GET" "/valkey/get/k" None []) as (r & Hlog & Hauth & Hdefaults).
  exists r. split; [exact Hlog|]. split; [exact Hauth|].
  apply Hdefaults. left. reflexivity.
Defined.
